(** * Broodpro: the landing page view and the documented contact form

    A shallow embedding of the two source files of the repository:

    - [src/App.jsx], the landing page component [App];
    - [buildingmanual.md], whose two [ContactForm] examples are React
      components with a [handleChange] and an asynchronous [handleSubmit].

    JavaScript strings are modelled as [string], plain objects as association
    lists in insertion order, JSX as a tree of elements, and an [async]
    function as a small program type whose suspension points ([await]) are
    resumed by events of the environment.

    What is assumed of React and of the browser:

    - a handler runs on the state of the latest render, and what it sets is
      in place before the next event; an event is handled in one turn, up to
      the end of the handler or its next [await];
    - a change event comes from a rendered control, a submit event from a
      rendered form through a submit button that is not disabled, and not
      while a [required] control is empty (the syntax check of an
      [type="email"] control is left out: it only removes submissions);
    - a pending [fetch] or [response.json()] may settle at any later turn,
      either way, and any number of edits may come in between;
    - strings are sequences of bytes: what [JSON.stringify] does to lone
      surrogates has no counterpart here. *)

From Stdlib Require Import String Ascii List Bool Arith ZArith Lia
  DecimalString.
Import ListNotations.
Open Scope string_scope.
Set Warnings "-register-all".

(** ** JavaScript data *)

Module JS.

(** A plain object whose property values are strings, in insertion order
    (the order [JSON.stringify] and the spread syntax follow). *)
Definition obj := list (string * string).

(** [o[k]]: [None] stands for [undefined]. *)
Fixpoint obj_get (k : string) (o : obj) : option string :=
  match o with
  | [] => None
  | (k', v') :: o' => if String.eqb k' k then Some v' else obj_get k o'
  end.

(** [{ ...o, [k]: v }]: an existing property keeps its place and takes the
    new value, a new property is added at the end. *)
Fixpoint obj_set (k v : string) (o : obj) : obj :=
  match o with
  | [] => [(k, v)]
  | (k', v') :: o' =>
      if String.eqb k' k then (k', v) :: o' else (k', v') :: obj_set k v o'
  end.

(** The values a status variable of the examples takes: [null] or a
    string. *)
Inductive value :=
| VNull
| VStr (s : string).

Definition value_eqb (a b : value) : bool :=
  match a, b with
  | VNull, VNull => true
  | VStr s, VStr t => String.eqb s t
  | _, _ => false
  end.

(** JavaScript truthiness of such a value: [null] and the empty string are
    falsy. *)
Definition truthy (v : value) : bool :=
  match v with
  | VNull => false
  | VStr s => negb (String.eqb s EmptyString)
  end.

(** *** JSON.stringify on objects of strings *)

Definition hex_digit (n : nat) : ascii :=
  match n with
  | 0 => "0" | 1 => "1" | 2 => "2" | 3 => "3" | 4 => "4" | 5 => "5"
  | 6 => "6" | 7 => "7" | 8 => "8" | 9 => "9" | 10 => "a" | 11 => "b"
  | 12 => "c" | 13 => "d" | 14 => "e" | _ => "f"
  end%char.

Definition dquote_char : ascii := ascii_of_nat 34.
Definition backslash : ascii := ascii_of_nat 92.

Definition escape (c : ascii) : string :=
  String backslash (String c EmptyString).

(** QuoteJSONString on one character: the quote and the backslash are
    escaped, control characters take their short escape or a [u00XX]
    escape, every other character stands for itself. *)
Definition quote_char (c : ascii) : string :=
  let n := nat_of_ascii c in
  if Nat.eqb n 34 then escape c
  else if Nat.eqb n 92 then escape c
  else if Nat.eqb n 8 then escape "b"
  else if Nat.eqb n 9 then escape "t"
  else if Nat.eqb n 10 then escape "n"
  else if Nat.eqb n 12 then escape "f"
  else if Nat.eqb n 13 then escape "r"
  else if Nat.ltb n 32 then
    String backslash
      (String "u" (String "0" (String "0"
        (String (hex_digit (n / 16))
          (String (hex_digit (n mod 16)) EmptyString)))))
  else String c EmptyString.

Fixpoint quote_chars (s : string) : string :=
  match s with
  | EmptyString => EmptyString
  | String c s' => quote_char c ++ quote_chars s'
  end.

Definition dquote : string := String dquote_char EmptyString.

Definition quote (s : string) : string := dquote ++ quote_chars s ++ dquote.

Definition member (kv : string * string) : string :=
  quote (fst kv) ++ ":" ++ quote (snd kv).

Definition JSON_stringify (o : obj) : string :=
  "{" ++ String.concat "," (map member o) ++ "}".

End JS.

(** ** JSX trees *)

Module Jsx.

(** The value of a JSX attribute. *)
Inductive attr_value :=
| AStr (s : string)                       (* "..." or {string expression} *)
| ABool (b : bool)                        (* a bare attribute or {boolean} *)
| AUndefined                              (* {undefined} *)
| AStyle (props : list (string * string)) (* style={{ ... }} *)
| AHandler (name : string).               (* {handleChange}, {handleSubmit} *)

Inductive jsx :=
| Elem (tag : string) (attrs : list (string * attr_value))
       (children : list jsx)
| Text (s : string)       (* literal text, or a string in braces *)
| Fragment (children : list jsx)
| Empty.                  (* false, null or '' in braces: renders nothing *)

Fixpoint attr (k : string) (attrs : list (string * attr_value))
  : option attr_value :=
  match attrs with
  | [] => None
  | (k', v) :: rest => if String.eqb k' k then Some v else attr k rest
  end.

(** Every node of a tree, in document order, the root first. *)
Fixpoint nodes (t : jsx) : list jsx :=
  t :: match t with
       | Elem _ _ children | Fragment children =>
           (fix all (l : list jsx) : list jsx :=
              match l with
              | [] => []
              | c :: l' => (nodes c ++ all l')%list
              end) children
       | Text _ | Empty => []
       end.

Definition attrs_of (t : jsx) : list (string * attr_value) :=
  match t with Elem _ attrs _ => attrs | _ => [] end.

Definition has_tag (tag : string) (t : jsx) : bool :=
  match t with Elem tag' _ _ => String.eqb tag' tag | _ => false end.

Definition is_text (s : string) (t : jsx) : bool :=
  match t with Text s' => String.eqb s' s | _ => false end.

Definition attr_is_str (k v : string) (t : jsx) : bool :=
  match attr k (attrs_of t) with
  | Some (AStr s) => String.eqb s v
  | _ => false
  end.

Definition attr_is_true (k : string) (t : jsx) : bool :=
  match attr k (attrs_of t) with
  | Some (ABool true) => true
  | _ => false
  end.

(** How many text nodes of the tree are exactly [s]. *)
Definition count_text (s : string) (t : jsx) : nat :=
  length (filter (is_text s) (nodes t)).

(** How many [<img>] elements of the tree have [src] equal to [src]. *)
Definition count_img (src : string) (t : jsx) : nat :=
  length (filter (fun n => has_tag "img" n && attr_is_str "src" src n)
                 (nodes t)).

(** How many times [needle] occurs in [hay], overlaps included. *)
Fixpoint occurrences (needle hay : string) : nat :=
  (if String.prefix needle hay then 1 else 0) +
  match hay with
  | EmptyString => 0
  | String _ hay' => occurrences needle hay'
  end.

(** All the text of the tree, concatenated in document order. *)
Definition text_content (t : jsx) : string :=
  String.concat EmptyString
    (flat_map (fun n => match n with Text s => [s] | _ => [] end) (nodes t)).

End Jsx.

(** ** The landing page: [src/App.jsx] *)

Module Landing.
Import Jsx.

(** The two imported image assets; an import is identified by its module
    specifier. *)
Definition logo : string := "./logos/logo4.png".
Definition heroImage : string :=
  "./images/Gemini_Generated_Image_h25qwth25qwth25q-Photoroom 2.png".

Definition div (className : string) (children : list jsx) : jsx :=
  Elem "div" [("className", AStr className)] children.

Definition navButton : jsx :=
  div "nav-hm-button-container"
    [ div "nav-hm-button on"
        [ div "nav-hm-line" [];
          div "nav-hm-line" [];
          div "nav-hm-line" [] ] ].

Definition App : jsx :=
  Fragment
    [ div "header"
        [ div "logo"
            [ Elem "img" [("className", AStr "logo-photo");
                          ("src", AStr logo); ("alt", AStr "logo")] [];
              Elem "h1" [("className", AStr "logo-text")] [Text "Broodpro"] ];
          Elem "nav" [("className", AStr "nav-lists")]
            [ Elem "p" [("className", AStr "nav-item")] [Text "Apply now"];
              navButton ] ];
      Elem "body" []
        [ div "hero-container"
            [ div "hero-section"
                [ div "hero-text-container"
                    [ Elem "h1" [("className", AStr "hero-text")]
                        [Text "Stay in"];
                      Elem "h1" [("className", AStr "hero-text")]
                        [Text "school"];
                      Elem "h1" [("className", AStr "hero-text")]
                        [Text "peeps"] ];
                  Elem "p" [("className", AStr "hero-subtext")]
                    [Text "And yes. We can help make that a reality."] ];
              div "button-container"
                [ Elem "p" [("className", AStr "button-text")]
                    [Text "Join the program"] ] ] ];
      div "hero-image"
        [ Elem "img" [("src", AStr heroImage); ("alt", AStr "graduants")] [] ]
    ].

(** The fixed strings of the page. *)
Definition fixed_texts : list string :=
  [ "Stay in"; "school"; "peeps";
    "And yes. We can help make that a reality.";
    "Join the program"; "Apply now" ].

Definition image_references : list string := [ logo; heroImage ].

End Landing.


(** ** Asynchronous handlers *)

Module Async.
Import JS.

(** What a rejected promise carries, and what [catch (error)] binds. *)
Record error := { error_name : string; error_message : string }.

(** How a promise ends. *)
Inductive settled (A : Type) :=
| Fulfilled (a : A)
| Rejected (e : error).
Arguments Fulfilled {A} a.
Arguments Rejected {A} e.

(** A parsed JSON body; a number keeps its literal. *)
Inductive json :=
| JNull
| JBool (b : bool)
| JNumber (literal : string)
| JString (s : string)
| JArray (items : list json)
| JObject (members : list (string * json)).

(** The second argument of [fetch]. *)
Record RequestInit := {
  method : string;
  headers : list (string * string);
  body : string
}.

(** The [Response] a fulfilled [fetch] yields, as far as the handlers read
    it: [response.ok] is true exactly for a status from 200 to 299. *)
Record Response := { status_code : Z }.

Definition ok (response : Response) : bool :=
  (200 <=? status_code response)%Z && (status_code response <=? 299)%Z.

(** The second argument of a [console.error] call. *)
Inductive logged :=
| LJson (j : json)
| LError (e : error).

(** The synchronous calls of the handlers. [setStatus] stands for the
    setter of the status variable ([setSubmissionStatus] in the first
    example, [setStatus] in the second). *)
Inductive action :=
| preventDefault
| setFormData (o : obj)
| setStatus (v : value)
| console_error (label : string) (x : logged).

(** The body of a handler: synchronous calls in sequence, and [await]
    points that hand a continuation over to the event loop. *)
Inductive prog :=
| Return
| Throw (e : error)
| Do (a : action) (k : prog)
| AwaitFetch (url : string) (init : RequestInit)
             (k : settled Response -> prog)
| AwaitJson (response : Response) (k : settled json -> prog).

(** [await p]: the value of a fulfilled promise, a throw for a rejected
    one. *)
Definition resume {A : Type} (k : A -> prog) (s : settled A) : prog :=
  match s with
  | Fulfilled a => k a
  | Rejected e => Throw e
  end.

(** [const x = await fetch(url, init); k x] *)
Definition await_fetch (url : string) (init : RequestInit)
           (k : Response -> prog) : prog :=
  AwaitFetch url init (resume k).

(** [const x = await response.json(); k x] *)
Definition await_json (response : Response) (k : json -> prog) : prog :=
  AwaitJson response (resume k).

(** [try { block } catch (error) { handler error }]: a throw anywhere in
    the block, also after an [await], runs the handler. *)
Fixpoint try_catch (block : prog) (handler : error -> prog) : prog :=
  match block with
  | Return => Return
  | Throw e => handler e
  | Do a k => Do a (try_catch k handler)
  | AwaitFetch url init k =>
      AwaitFetch url init (fun s => try_catch (k s) handler)
  | AwaitJson response k =>
      AwaitJson response (fun s => try_catch (k s) handler)
  end.

End Async.

Notation "a ;; k" := (Async.Do a k) (at level 61, right associativity).

(** ** A component with its state, its pending continuations and its events *)

Module React.
Import JS Jsx Async.

(** A form component of the manual: two state variables, a render function
    of them, and two handlers, each closed over the [formData] of the render
    that created it. [handleChange] reads [e.target.name] and
    [e.target.value]. *)
Record component := {
  initialFormData : obj;
  initialStatus : value;
  render : obj -> value -> jsx;
  handleChange : obj -> string -> string -> prog;
  handleSubmit : obj -> prog
}.

(** A continuation waiting at an [await]. *)
Inductive task :=
| TFetch (k : settled Response -> prog)
| TJson (k : settled json -> prog).

(** What the component does to the outside, in order. *)
Inductive effect :=
| Did (a : action)
| Requested (url : string) (init : RequestInit)  (* fetch(url, init) *)
| ReadJson (response : Response)                 (* response.json() *)
| Uncaught (e : error).

Record world := {
  formData : obj;
  status : value;
  pending : list task;
  log : list effect
}.

Definition perform (a : action) (w : world) : world :=
  match a with
  | setFormData o =>
      {| formData := o; status := status w; pending := pending w;
         log := log w ++ [Did a] |}
  | setStatus v =>
      {| formData := formData w; status := v; pending := pending w;
         log := log w ++ [Did a] |}
  | preventDefault | console_error _ _ =>
      {| formData := formData w; status := status w; pending := pending w;
         log := log w ++ [Did a] |}
  end.

Definition suspend (t : task) (e : effect) (w : world) : world :=
  {| formData := formData w; status := status w;
     pending := pending w ++ [t]; log := log w ++ [e] |}.

(** Run a handler up to its end or its next [await]. *)
Fixpoint exec (p : prog) (w : world) : world :=
  match p with
  | Return => w
  | Throw e =>
      {| formData := formData w; status := status w; pending := pending w;
         log := log w ++ [Uncaught e] |}
  | Do a k => exec k (perform a w)
  | AwaitFetch url init k => suspend (TFetch k) (Requested url init) w
  | AwaitJson response k => suspend (TJson k) (ReadJson response) w
  end.

(** *** Which user events the rendered tree admits *)

Definition is_control (n : jsx) : bool :=
  has_tag "input" n || has_tag "textarea" n.

Definition handler_is (k name : string) (n : jsx) : bool :=
  match attr k (attrs_of n) with
  | Some (AHandler h) => String.eqb h name
  | _ => false
  end.

(** A change event with [e.target.name = name] comes from a rendered
    control of that name whose [onChange] is [handleChange]. *)
Definition change_target (name : string) (view : jsx) : bool :=
  existsb (fun n => is_control n && attr_is_str "name" name n
                    && handler_is "onChange" "handleChange" n)
          (nodes view).

(** A [required] control whose value is empty blocks the submission. *)
Definition value_missing (n : jsx) : bool :=
  is_control n && attr_is_true "required" n
  && attr_is_str "value" EmptyString n.

Definition submit_button (n : jsx) : bool :=
  has_tag "button" n && attr_is_str "type" "submit" n
  && negb (attr_is_true "disabled" n).

(** A submit event reaches [handleSubmit] from a form whose [onSubmit] it
    is, through a submit button that is not disabled, once no required
    control is empty. *)
Definition can_submit (view : jsx) : bool :=
  existsb (fun f => has_tag "form" f
                    && handler_is "onSubmit" "handleSubmit" f
                    && existsb submit_button (nodes f)
                    && forallb (fun n => negb (value_missing n)) (nodes f))
          (nodes view).

(** *** Events *)

Inductive event :=
| Change (name value : string)      (* the user edits a control *)
| Submit                            (* the user submits the form *)
| FetchSettled (i : nat) (o : settled Response)
| JsonSettled (i : nat) (o : settled json).

Fixpoint remove_nth {A : Type} (i : nat) (l : list A) : list A :=
  match l, i with
  | [], _ => []
  | _ :: l', 0 => l'
  | x :: l', S i' => x :: remove_nth i' l'
  end.

Definition forget (i : nat) (w : world) : world :=
  {| formData := formData w; status := status w;
     pending := remove_nth i (pending w); log := log w |}.

Section Machine.
Variable C : component.

Definition initial : world :=
  {| formData := initialFormData C; status := initialStatus C;
     pending := []; log := [] |}.

Definition view (w : world) : jsx := render C (formData w) (status w).

(** One turn of the event loop. [None]: the event cannot happen in this
    state. *)
Definition dispatch (e : event) (w : world) : option world :=
  match e with
  | Change name value =>
      if change_target name (view w)
      then Some (exec (handleChange C (formData w) name value) w)
      else None
  | Submit =>
      if can_submit (view w)
      then Some (exec (handleSubmit C (formData w)) w)
      else None
  | FetchSettled i o =>
      match nth_error (pending w) i with
      | Some (TFetch k) => Some (exec (k o) (forget i w))
      | _ => None
      end
  | JsonSettled i o =>
      match nth_error (pending w) i with
      | Some (TJson k) => Some (exec (k o) (forget i w))
      | _ => None
      end
  end.

Fixpoint run (es : list event) (w : world) : option world :=
  match es with
  | [] => Some w
  | e :: es' =>
      match dispatch e w with
      | Some w' => run es' w'
      | None => None
      end
  end.

Definition reachable (w : world) : Prop :=
  exists es, run es initial = Some w.

End Machine.

(** The names of the three controls of both forms. *)
Definition is_field (name : string) : bool :=
  String.eqb "name" name || String.eqb "email" name
  || String.eqb "message" name.

(** No one of three values is empty. *)
Definition filled (n e m : string) : bool :=
  negb (String.eqb n EmptyString) && negb (String.eqb e EmptyString)
  && negb (String.eqb m EmptyString).

Definition is_change (e : event) : bool :=
  match e with
  | Change _ _ => true
  | _ => false
  end.

(** The state the component holds, without the log of its effects. *)
Definition state_of (w : world) : obj * value * list task :=
  (formData w, status w, pending w).

(** How many times some effects set the status to [v]. *)
Definition status_sets (v : value) (l : list effect) : nat :=
  length (filter (fun e => match e with
                           | Did (setStatus v') => value_eqb v' v
                           | _ => false
                           end) l).

(** One whole submission: the user types the three values and submits, and
    the request is answered by [r]. *)
Definition submission (n e m : string) (r : Response) : list event :=
  [ Change "name" n; Change "email" e; Change "message" m; Submit;
    FetchSettled 0 (Fulfilled r) ].

(** Every button of a tree is disabled. *)
Definition buttons_disabled (view : jsx) : bool :=
  forallb (fun n => negb (has_tag "button" n) || attr_is_true "disabled" n)
          (nodes view).

(** The requests among some effects. *)
Definition requests (l : list effect) : list (string * RequestInit) :=
  flat_map (fun e => match e with
                     | Requested url init => [(url, init)]
                     | _ => []
                     end) l.

End React.

(** ** The first [ContactForm] of the manual *)

Module ContactForm.
Import JS Jsx Async React.

Definition endpoint : string := "YOUR_BACKEND_API_ENDPOINT/submit-form".

Definition setSubmissionStatus : value -> action := setStatus.

Definition emptyForm : obj :=
  [("name", EmptyString); ("email", EmptyString); ("message", EmptyString)].

Definition handleChange (formData : obj) (name value : string) : prog :=
  setFormData (obj_set name value formData) ;; Return.

Definition handleSubmit (formData : obj) : prog :=
  preventDefault ;;
  setSubmissionStatus (VStr "submitting") ;;
  try_catch
    (await_fetch endpoint
       {| method := "POST";
          headers := [("Content-Type", "application/json")];
          body := JSON_stringify formData |}
       (fun response =>
          if ok response then
            setSubmissionStatus (VStr "success") ;;
            setFormData emptyForm ;;
            Return
          else
            await_json response (fun errorData =>
              setSubmissionStatus (VStr "error") ;;
              console_error "Form submission error:" (LJson errorData) ;;
              Return)))
    (fun error =>
       setSubmissionStatus (VStr "error") ;;
       console_error "Network or other error:" (LError error) ;;
       Return).

(** [{formData.name}] and the like as an attribute value. *)
Definition prop (v : option string) : attr_value :=
  match v with
  | Some s => AStr s
  | None => AUndefined
  end.

(** [{cond && element}] *)
Definition when (cond : bool) (element : jsx) : jsx :=
  if cond then element else Empty.

Definition render (formData : obj) (submissionStatus : value) : jsx :=
  Elem "form" [("onSubmit", AHandler "handleSubmit")]
    [ Elem "div" []
        [ Elem "label" [("htmlFor", AStr "name")] [Text "Name:"];
          Elem "input"
            [ ("type", AStr "text"); ("id", AStr "name");
              ("name", AStr "name");
              ("value", prop (obj_get "name" formData));
              ("onChange", AHandler "handleChange");
              ("required", ABool true) ] [] ];
      Elem "div" []
        [ Elem "label" [("htmlFor", AStr "email")] [Text "Email:"];
          Elem "input"
            [ ("type", AStr "email"); ("id", AStr "email");
              ("name", AStr "email");
              ("value", prop (obj_get "email" formData));
              ("onChange", AHandler "handleChange");
              ("required", ABool true) ] [] ];
      Elem "div" []
        [ Elem "label" [("htmlFor", AStr "message")] [Text "Message:"];
          Elem "textarea"
            [ ("id", AStr "message"); ("name", AStr "message");
              ("value", prop (obj_get "message" formData));
              ("onChange", AHandler "handleChange");
              ("required", ABool true) ] [] ];
      Elem "button"
        [ ("type", AStr "submit");
          ("disabled",
           ABool (value_eqb submissionStatus (VStr "submitting"))) ]
        [ Text (if value_eqb submissionStatus (VStr "submitting")
                then "Sending..." else "Submit") ];
      when (value_eqb submissionStatus (VStr "success"))
        (Elem "p" [("style", AStyle [("color", "green")])]
           [Text "Message sent successfully!"]);
      when (value_eqb submissionStatus (VStr "error"))
        (Elem "p" [("style", AStyle [("color", "red")])]
           [Text "Error sending message. Please try again."]) ].

Definition ContactForm : component :=
  {| React.initialFormData := emptyForm;
     React.initialStatus := VNull;
     React.render := render;
     React.handleChange := handleChange;
     React.handleSubmit := handleSubmit |}.

(** The four values of [submissionStatus]; the initial [null] is the state
    the specification calls idle. *)
Definition idle : value := VNull.
Definition submitting : value := VStr "submitting".
Definition success : value := VStr "success".
Definition error : value := VStr "error".

(** The object with the three fields of the form, in the order of the
    [useState] literal. *)
Definition form (n e m : string) : obj :=
  [("name", n); ("email", e); ("message", m)].

(** The continuation [handleSubmit] leaves at [await fetch(...)]: the rest
    of the [try] block, under its [catch]. *)
Definition at_fetch : settled Response -> prog :=
  fun s =>
    match handleSubmit emptyForm with
    | _ ;; _ ;; AwaitFetch _ _ k => k s
    | _ => Return
    end.

(** The continuation it leaves at [await response.json()], still under the
    same [catch]. *)
Definition at_json : settled json -> prog :=
  fun s =>
    match at_fetch (Fulfilled {| status_code := 500 |}) with
    | AwaitJson _ k => k s
    | _ => Return
    end.

(** What holds of the component between two events: [formData] has the
    three fields, and either nothing is pending and the status is not
    ['submitting'], or the status is ['submitting'] and the one pending
    continuation is that of the one request. *)
Definition Inv (w : world) : Prop :=
  (exists n e m, formData w = form n e m) /\
  ((pending w = [] /\
    (status w = idle \/ status w = success \/ status w = error)) \/
   (status w = submitting /\
    (pending w = [TFetch at_fetch] \/ pending w = [TJson at_json]))).

(** The transitions the specification lists:
    idle -> submitting -> {success, error}, error -> submitting. *)
Definition spec_transition (a b : value) : bool :=
  (value_eqb a idle && value_eqb b submitting)
  || (value_eqb a submitting && (value_eqb b success || value_eqb b error))
  || (value_eqb a error && value_eqb b submitting).

(** The transitions of the component: those, and success -> submitting. *)
Definition transition (a b : value) : bool :=
  spec_transition a b || (value_eqb a success && value_eqb b submitting).

(** The request [handleSubmit] sends for the fields [n], [e], [m]. *)
Definition json_of (n e m : string) : string :=
  "{" ++ (member ("name", n) ++ "," ++
          member ("email", e) ++ "," ++
          member ("message", m)) ++ "}".

Definition request (n e m : string) : string * RequestInit :=
  (endpoint,
   {| method := "POST";
      headers := [("Content-Type", "application/json")];
      body := json_of n e m |}).

End ContactForm.

(** ** The second [ContactForm] of the manual ([frontend/src/ContactForm.jsx]) *)

Module ContactForm2.
Import JS Jsx Async React.

Definition endpoint : string := "http://localhost:5000/contact".

Definition emptyForm : obj :=
  [("name", EmptyString); ("email", EmptyString); ("message", EmptyString)].

Definition handleChange (formData : obj) (name value : string) : prog :=
  setFormData (obj_set name value formData) ;; Return.

(** Here the [catch] block logs first and sets the status after. *)
Definition handleSubmit (formData : obj) : prog :=
  preventDefault ;;
  setStatus (VStr "Sending...") ;;
  try_catch
    (await_fetch endpoint
       {| method := "POST";
          headers := [("Content-Type", "application/json")];
          body := JSON_stringify formData |}
       (fun response =>
          if ok response then
            setStatus (VStr "Message sent successfully!") ;;
            setFormData emptyForm ;;
            Return
          else
            setStatus (VStr "Failed to send message.") ;;
            Return))
    (fun error =>
       console_error "Error submitting form:" (LError error) ;;
       setStatus (VStr "An error occurred.") ;;
       Return).

(** [{status}] as a child. *)
Definition show (status : value) : jsx :=
  match status with
  | VStr s => Text s
  | VNull => Empty
  end.

(** [{status && <p>{status}</p>}]: a falsy status renders nothing. *)
Definition status_line (status : value) : jsx :=
  if truthy status then Elem "p" [] [show status] else Empty.

Definition render (formData : obj) (status : value) : jsx :=
  Elem "form" [("onSubmit", AHandler "handleSubmit")]
    [ Elem "div" []
        [ Elem "label" [("htmlFor", AStr "name")] [Text "Name:"];
          Elem "input"
            [ ("type", AStr "text"); ("id", AStr "name");
              ("name", AStr "name");
              ("value", ContactForm.prop (obj_get "name" formData));
              ("onChange", AHandler "handleChange");
              ("required", ABool true) ] [] ];
      Elem "div" []
        [ Elem "label" [("htmlFor", AStr "email")] [Text "Email:"];
          Elem "input"
            [ ("type", AStr "email"); ("id", AStr "email");
              ("name", AStr "email");
              ("value", ContactForm.prop (obj_get "email" formData));
              ("onChange", AHandler "handleChange");
              ("required", ABool true) ] [] ];
      Elem "div" []
        [ Elem "label" [("htmlFor", AStr "message")] [Text "Message:"];
          Elem "textarea"
            [ ("id", AStr "message"); ("name", AStr "message");
              ("value", ContactForm.prop (obj_get "message" formData));
              ("onChange", AHandler "handleChange");
              ("required", ABool true) ] [] ];
      Elem "button" [("type", AStr "submit")] [Text "Send Message"];
      status_line status ].

Definition ContactForm : component :=
  {| React.initialFormData := emptyForm;
     React.initialStatus := VStr EmptyString;
     React.render := render;
     React.handleChange := handleChange;
     React.handleSubmit := handleSubmit |}.

(** The continuation [handleSubmit] leaves at [await fetch(...)]. *)
Definition at_fetch : settled Response -> prog :=
  fun s =>
    match handleSubmit emptyForm with
    | _ ;; _ ;; AwaitFetch _ _ k => k s
    | _ => Return
    end.

(** The five strings [status] takes. *)
Definition statuses : list value :=
  [ VStr EmptyString; VStr "Sending..."; VStr "Message sent successfully!";
    VStr "Failed to send message."; VStr "An error occurred." ].

(** What holds of the second component between two events. Any number of
    requests may be pending. *)
Definition Inv (w : world) : Prop :=
  (exists n e m, formData w = ContactForm.form n e m) /\
  Forall (fun t => t = TFetch at_fetch) (pending w) /\
  In (status w) statuses.

Definition request (n e m : string) : string * RequestInit :=
  (endpoint,
   {| method := "POST";
      headers := [("Content-Type", "application/json")];
      body := ContactForm.json_of n e m |}).

End ContactForm2.

(** ** Sample inputs *)

Module Sample.
Import JS Async React.

Definition r200 : Response := {| status_code := 200 |}.
Definition r500 : Response := {| status_code := 500 |}.

Definition network_error : error :=
  {| error_name := "TypeError"; error_message := "Failed to fetch" |}.

Definition syntax_error : error :=
  {| error_name := "SyntaxError";
     error_message := "Unexpected token < in JSON at position 0" |}.

(** The user fills in the three controls. *)
Definition fill : list event :=
  [ Change "name" "Ada"; Change "email" "ada@example.org";
    Change "message" "Hello" ].

(** The world after some events, from the initial one. *)
Definition after (C : component) (es : list event) : world :=
  match run C es (initial C) with
  | Some w => w
  | None => initial C
  end.

End Sample.

(** ** What a form holds and shows *)

Module Fields.
Import JS Jsx Async React.

(** [Object.keys(o)] *)
Definition keys (o : obj) : list string := map fst o.

(** A name written with digits only. Among such names are the integer
    indices, which a JavaScript object lists before its other keys and in
    ascending order, whatever the order of insertion; an association list
    in insertion order stands for an object only when no key is one. *)
Definition is_digit (c : ascii) : bool :=
  let n := nat_of_ascii c in Nat.leb 48 n && Nat.leb n 57.

Fixpoint all_digits (s : string) : bool :=
  match s with
  | EmptyString => true
  | String c s' => is_digit c && all_digits s'
  end.

Definition numeric (s : string) : bool :=
  negb (String.eqb s EmptyString) && all_digits s.

(** No key of the object is written with digits only. *)
Definition named_keys (o : obj) : bool :=
  forallb (fun k => negb (numeric k)) (keys o).

(** The [value] attribute of the first rendered control named [name]. *)
Definition control_value (name : string) (view : jsx) : option attr_value :=
  match find (fun n => is_control n && attr_is_str "name" name n)
             (nodes view) with
  | Some n => attr "value" (attrs_of n)
  | None => None
  end.

(** The errors that no [catch] took. *)
Definition uncaught (l : list effect) : list error :=
  flat_map (fun e => match e with
                     | Uncaught x => [x]
                     | _ => []
                     end) l.

(** How many [console.error] calls some effects hold. *)
Definition console_errors (l : list effect) : nat :=
  length (filter (fun e => match e with
                           | Did (console_error _ _) => true
                           | _ => false
                           end) l).

(** The status a settled request of the second form leaves, and the fields
    it leaves: read off the three branches of its [handleSubmit]. *)
Definition outcome_status (o : settled Response) : value :=
  match o with
  | Fulfilled r =>
      if ok r then VStr "Message sent successfully!"
      else VStr "Failed to send message."
  | Rejected _ => VStr "An error occurred."
  end.

Definition outcome_fields (o : settled Response) (before : obj) : obj :=
  match o with
  | Fulfilled r => if ok r then ContactForm2.emptyForm else before
  | Rejected _ => before
  end.

(** What the effects of the first form add up to, between two events:
    no error has escaped; there are as many requests as settings of
    ['submitting'], and as many as outcomes plus pending continuations; an
    error is logged for each setting of ['error']; the status is [null]
    exactly as long as nothing has been requested. *)
Definition Ledger (w : world) : Prop :=
  uncaught (log w) = [] /\
  length (requests (log w)) = status_sets (VStr "submitting") (log w) /\
  length (requests (log w)) =
    (length (pending w) + status_sets (VStr "success") (log w)
     + status_sets (VStr "error") (log w))%nat /\
  console_errors (log w) = status_sets (VStr "error") (log w) /\
  (status w = VNull <-> requests (log w) = []).

(** The same for the second form, with its own status strings. *)
Definition Ledger2 (w : world) : Prop :=
  uncaught (log w) = [] /\
  length (requests (log w)) = status_sets (VStr "Sending...") (log w) /\
  length (requests (log w)) =
    (length (pending w)
     + status_sets (VStr "Message sent successfully!") (log w)
     + status_sets (VStr "Failed to send message.") (log w)
     + status_sets (VStr "An error occurred.") (log w))%nat /\
  console_errors (log w) = status_sets (VStr "An error occurred.") (log w) /\
  (status w = VStr EmptyString <-> requests (log w) = []).

End Fields.

(** ** The [axios] variant of the second form's [try] block *)

Module Axios.
Import JS Jsx Async React.

Definition endpoint : string := "http://localhost:5000/contact".

(** What the promise of [axios] rejects with when the response has a status
    outside 200 to 299 (its default [validateStatus]), as the library
    writes it at version 1. *)
Definition status_error (response : Response) : error :=
  {| error_name := "AxiosError";
     error_message :=
       "Request failed with status code "
       ++ NilZero.string_of_int (Z.to_int (status_code response)) |}.

(** [await axios.post(url, data)]: the request is a POST whose body is the
    JSON text of [data]; the call names no header (those the library adds
    by itself are left out). The [await] gives the response when its status
    is from 200 to 299, and throws otherwise: for another status what the
    library rejects with, for a failed transport what that failed with. *)
Definition axios_post (url : string) (data : obj) (k : Response -> prog)
  : prog :=
  AwaitFetch url
    {| method := "POST"; headers := []; body := JSON_stringify data |}
    (fun s =>
       match s with
       | Fulfilled response =>
           if ok response then k response else Throw (status_error response)
       | Rejected e => Throw e
       end).

(** [response.status === 200] *)
Definition status_is_200 (response : Response) : bool :=
  (status_code response =? 200)%Z.

(** The [try]/[catch] statement of the manual, to stand inside
    [handleSubmit]. *)
Definition try_statement (formData : obj) : prog :=
  try_catch
    (axios_post endpoint formData
       (fun response =>
          if status_is_200 response then
            setStatus (VStr "Message sent successfully!") ;;
            setFormData ContactForm2.emptyForm ;;
            Return
          else
            setStatus (VStr "Failed to send message.") ;;
            Return))
    (fun error =>
       console_error "Error submitting form:" (LError error) ;;
       setStatus (VStr "An error occurred.") ;;
       Return).

(** The continuation it leaves at its [await]. *)
Definition at_post : settled Response -> prog :=
  fun s =>
    match try_statement ContactForm2.emptyForm with
    | AwaitFetch _ _ k => k s
    | _ => Return
    end.

End Axios.

(** ** Reading back the text of a request body *)

Module JsonText.
Import JS.

Definition hex_value (c : ascii) : option nat :=
  let n := nat_of_ascii c in
  if Nat.leb 48 n && Nat.leb n 57 then Some (n - 48)
  else if Nat.leb 97 n && Nat.leb n 102 then Some (n - 87)
  else if Nat.leb 65 n && Nat.leb n 70 then Some (n - 55)
  else None.

Definition push (c : ascii) (r : option (string * string))
  : option (string * string) :=
  match r with
  | Some (s, rest) => Some (String c s, rest)
  | None => None
  end.

(** The characters of a JSON string after its opening quote, up to the
    closing one, escapes undone, and the text after the closing quote.
    [None]: the text is not a JSON string, or holds an escape above
    [u00ff]. *)
Fixpoint read_chars (s : string) : option (string * string) :=
  match s with
  | EmptyString => None
  | String c rest =>
      if Ascii.eqb c dquote_char then Some (EmptyString, rest)
      else if Ascii.eqb c backslash then
        match rest with
        | EmptyString => None
        | String e rest' =>
            if Ascii.eqb e dquote_char || Ascii.eqb e backslash
               || Ascii.eqb e "/"
            then push e (read_chars rest')
            else if Ascii.eqb e "b" then push (ascii_of_nat 8) (read_chars rest')
            else if Ascii.eqb e "t" then push (ascii_of_nat 9) (read_chars rest')
            else if Ascii.eqb e "n" then push (ascii_of_nat 10) (read_chars rest')
            else if Ascii.eqb e "f" then push (ascii_of_nat 12) (read_chars rest')
            else if Ascii.eqb e "r" then push (ascii_of_nat 13) (read_chars rest')
            else if Ascii.eqb e "u" then
              match rest' with
              | String h3 (String h2 (String h1 (String h0 rest''))) =>
                  match hex_value h3, hex_value h2, hex_value h1,
                        hex_value h0 with
                  | Some 0, Some 0, Some a, Some b =>
                      push (ascii_of_nat (16 * a + b)) (read_chars rest'')
                  | _, _, _, _ => None
                  end
              | _ => None
              end
            else None
        end
      else if Nat.ltb (nat_of_ascii c) 32 then None
      else push c (read_chars rest)
  end.

(** A character that a JSON string holds as it is: no control character,
    no quote, no backslash. *)
Definition plain_char (c : ascii) : bool :=
  let n := nat_of_ascii c in
  Nat.leb 32 n && negb (Nat.eqb n 34) && negb (Nat.eqb n 92).

Fixpoint plain (s : string) : bool :=
  match s with
  | EmptyString => true
  | String c s' => plain_char c && plain s'
  end.

(** A JSON string with its quotes. *)
Definition read_quoted (s : string) : option (string * string) :=
  match s with
  | String c rest => if Ascii.eqb c dquote_char then read_chars rest else None
  | EmptyString => None
  end.

(** The text [s] after the literal [lit], when it starts with it. *)
Fixpoint after_literal (lit s : string) : option string :=
  match lit, s with
  | EmptyString, _ => Some s
  | String a lit', String b s' =>
      if Ascii.eqb a b then after_literal lit' s' else None
  | String _ _, EmptyString => None
  end.

(** One member [key : value] whose key is [key]. *)
Definition read_member (key s : string) : option (string * string) :=
  match read_quoted s with
  | Some (k, rest) =>
      if String.eqb k key then
        match after_literal ":" rest with
        | Some rest' => read_quoted rest'
        | None => None
        end
      else None
  | None => None
  end.

(** The three values of the text of an object with the members name, email
    and message, in this order and with no white space, as
    [JSON.stringify] writes it. *)
Definition read_form (s : string) : option (string * string * string) :=
  match after_literal "{" s with
  | Some s1 =>
      match read_member "name" s1 with
      | Some (n, s2) =>
          match after_literal "," s2 with
          | Some s3 =>
              match read_member "email" s3 with
              | Some (e, s4) =>
                  match after_literal "," s4 with
                  | Some s5 =>
                      match read_member "message" s5 with
                      | Some (m, s6) =>
                          if String.eqb s6 "}" then Some (n, e, m) else None
                      | None => None
                      end
                  | None => None
                  end
              | None => None
              end
          | None => None
          end
      | None => None
      end
  | None => None
  end.

End JsonText.

Import JS Jsx Async React.

Abbreviation CF := ContactForm.ContactForm.
Abbreviation CF2 := ContactForm2.ContactForm.

Open Scope list_scope.

(** * Properties *)

(** ** Objects *)

Lemma obj_get_set_same (k v : string) (o : obj) :
  obj_get k (obj_set k v o) = Some v.
Proof.
  induction o as [|[k' v'] o IH]; simpl.
  - now rewrite String.eqb_refl.
  - destruct (String.eqb k' k) eqn:E; simpl; now rewrite E.
Qed.

Lemma obj_get_set_other (k k0 v : string) (o : obj) :
  k0 <> k -> obj_get k0 (obj_set k v o) = obj_get k0 o.
Proof.
  intros Hne. induction o as [|[k' v'] o IH]; simpl.
  - destruct (String.eqb_spec k k0); [congruence | reflexivity].
  - destruct (String.eqb_spec k' k) as [->|]; simpl.
    + destruct (String.eqb_spec k k0); [congruence | reflexivity].
    + now rewrite IH.
Qed.

(** ** What the rendered forms admit *)

#[local] Arguments String.eqb : simpl nomatch.

Lemma is_field_In (name : string) :
  is_field name = true -> In name ["name"; "email"; "message"].
Proof.
  unfold is_field. intros H.
  destruct (String.eqb_spec "name" name); [simpl; auto|].
  destruct (String.eqb_spec "email" name); [simpl; auto|].
  destruct (String.eqb_spec "message" name); [simpl; auto|discriminate].
Qed.

Lemma change_target_render (fd : obj) (st : value) (name : string) :
  change_target name (ContactForm.render fd st) = is_field name.
Proof.
  unfold change_target, ContactForm.render, ContactForm.when, is_field.
  destruct (value_eqb st (VStr "success")), (value_eqb st (VStr "error"));
    cbn; destruct (String.eqb "name" name), (String.eqb "email" name),
           (String.eqb "message" name); reflexivity.
Qed.

Lemma change_target_render2 (fd : obj) (st : value) (name : string) :
  change_target name (ContactForm2.render fd st) = is_field name.
Proof.
  unfold change_target, ContactForm2.render, ContactForm2.status_line, is_field.
  destruct st as [|s]; destruct (truthy _);
    cbn; destruct (String.eqb "name" name), (String.eqb "email" name),
           (String.eqb "message" name); reflexivity.
Qed.

Lemma can_submit_render (n e m : string) (st : value) :
  can_submit (ContactForm.render (ContactForm.form n e m) st) =
  negb (value_eqb st ContactForm.submitting) && filled n e m.
Proof.
  unfold can_submit, ContactForm.render, ContactForm.when, filled,
    ContactForm.submitting.
  destruct (value_eqb st (VStr "success")), (value_eqb st (VStr "error")),
    (value_eqb st (VStr "submitting"));
    cbn; destruct (String.eqb n EmptyString), (String.eqb e EmptyString),
           (String.eqb m EmptyString); reflexivity.
Qed.

Lemma can_submit_render2 (n e m : string) (st : value) :
  can_submit (ContactForm2.render (ContactForm.form n e m) st) = filled n e m.
Proof.
  unfold can_submit, ContactForm2.render, ContactForm2.status_line, filled.
  destruct st as [|s]; destruct (truthy _);
    cbn; destruct (String.eqb n EmptyString), (String.eqb e EmptyString),
           (String.eqb m EmptyString); reflexivity.
Qed.

(** ** What the handlers of the first form do *)

Lemma handleSubmit_exec (fd : obj) (w : world) :
  exec (ContactForm.handleSubmit fd) w =
  {| formData := formData w; status := ContactForm.submitting;
     pending := pending w ++ [TFetch ContactForm.at_fetch];
     log := log w ++
            [ Did preventDefault;
              Did (setStatus ContactForm.submitting);
              Requested ContactForm.endpoint
                {| method := "POST";
                   headers := [("Content-Type", "application/json")];
                   body := JSON_stringify fd |} ] |}.
Proof.
  cbn. unfold suspend. cbn. rewrite <- !app_assoc. reflexivity.
Qed.

Lemma at_fetch_ok_exec (r : Response) (w : world) :
  ok r = true ->
  exec (ContactForm.at_fetch (Fulfilled r)) w =
  {| formData := ContactForm.emptyForm; status := ContactForm.success;
     pending := pending w;
     log := log w ++ [ Did (setStatus ContactForm.success);
                       Did (setFormData ContactForm.emptyForm) ] |}.
Proof.
  intros H. unfold ContactForm.at_fetch. cbn. rewrite H. cbn.
  rewrite <- !app_assoc. reflexivity.
Qed.

Lemma at_fetch_not_ok_exec (r : Response) (w : world) :
  ok r = false ->
  exec (ContactForm.at_fetch (Fulfilled r)) w =
  {| formData := formData w; status := status w;
     pending := pending w ++ [TJson ContactForm.at_json];
     log := log w ++ [ReadJson r] |}.
Proof.
  intros H. unfold ContactForm.at_fetch. cbn. rewrite H. reflexivity.
Qed.

Lemma at_fetch_rejected_exec (e : Async.error) (w : world) :
  exec (ContactForm.at_fetch (Rejected e)) w =
  {| formData := formData w; status := ContactForm.error;
     pending := pending w;
     log := log w ++
            [ Did (setStatus ContactForm.error);
              Did (console_error "Network or other error:" (LError e)) ] |}.
Proof.
  unfold ContactForm.at_fetch. cbn. rewrite <- !app_assoc. reflexivity.
Qed.

Lemma at_json_fulfilled_exec (j : json) (w : world) :
  exec (ContactForm.at_json (Fulfilled j)) w =
  {| formData := formData w; status := ContactForm.error;
     pending := pending w;
     log := log w ++
            [ Did (setStatus ContactForm.error);
              Did (console_error "Form submission error:" (LJson j)) ] |}.
Proof.
  unfold ContactForm.at_json. cbn. rewrite <- !app_assoc. reflexivity.
Qed.

Lemma at_json_rejected_exec (e : Async.error) (w : world) :
  exec (ContactForm.at_json (Rejected e)) w =
  {| formData := formData w; status := ContactForm.error;
     pending := pending w;
     log := log w ++
            [ Did (setStatus ContactForm.error);
              Did (console_error "Network or other error:" (LError e)) ] |}.
Proof.
  unfold ContactForm.at_json. cbn. rewrite <- !app_assoc. reflexivity.
Qed.

(** ** The steps of the first form *)

Lemma obj_set_form (name value n e m : string) :
  is_field name = true ->
  exists n' e' m',
    obj_set name value (ContactForm.form n e m) = ContactForm.form n' e' m'.
Proof.
  intros H. apply is_field_In in H. simpl in H.
  destruct H as [<-|[<-|[<-|[]]]]; do 3 eexists; reflexivity.
Qed.

Lemma change_step (w w' : world) (name value : string) :
  dispatch CF (Change name value) w = Some w' ->
  is_field name = true /\
  w' = {| formData := obj_set name value (formData w); status := status w;
          pending := pending w;
          log := log w ++
                 [Did (setFormData (obj_set name value (formData w)))] |}.
Proof.
  unfold dispatch, view. cbn [render CF handleChange].
  rewrite change_target_render.
  destruct (is_field name); [|discriminate].
  intros [= <-]. split; reflexivity.
Qed.

Lemma submit_step (w w' : world) :
  ContactForm.Inv w ->
  dispatch CF Submit w = Some w' ->
  exists n e m,
    formData w = ContactForm.form n e m /\ filled n e m = true /\
    pending w = [] /\ status w <> ContactForm.submitting /\
    w' = {| formData := formData w; status := ContactForm.submitting;
            pending := [TFetch ContactForm.at_fetch];
            log := log w ++
                   [ Did preventDefault;
                     Did (setStatus ContactForm.submitting);
                     Requested ContactForm.endpoint
                               (snd (ContactForm.request n e m)) ] |}.
Proof.
  intros [(n & e & m & Hfd) Hst].
  unfold dispatch, view. cbn [render CF handleSubmit].
  rewrite Hfd, can_submit_render.
  destruct Hst as [[Hp Hs] | [Hs _]].
  - destruct (negb _ && _) eqn:E; [|discriminate].
    apply andb_prop in E as [E1 E2].
    rewrite handleSubmit_exec, Hp. intros [= <-].
    exists n, e, m. repeat split; auto.
    + intros Hsub. rewrite Hsub in E1. discriminate.
    + now rewrite Hfd.
  - rewrite Hs. cbn. discriminate.
Qed.

Lemma fetch_step (w w' : world) (i : nat) (o : settled Response) :
  ContactForm.Inv w ->
  dispatch CF (FetchSettled i o) w = Some w' ->
  i = 0 /\ status w = ContactForm.submitting /\
  pending w = [TFetch ContactForm.at_fetch] /\
  w' = exec (ContactForm.at_fetch o) (forget 0 w).
Proof.
  intros [_ Hst]. unfold dispatch.
  destruct Hst as [[Hp _] | [Hs [Hp | Hp]]]; rewrite Hp.
  - destruct i; discriminate.
  - destruct i as [|[|i]]; cbn; try discriminate.
    intros [= <-]. repeat split; auto.
  - destruct i as [|[|i]]; discriminate.
Qed.

Lemma json_step (w w' : world) (i : nat) (o : settled json) :
  ContactForm.Inv w ->
  dispatch CF (JsonSettled i o) w = Some w' ->
  i = 0 /\ status w = ContactForm.submitting /\
  pending w = [TJson ContactForm.at_json] /\
  w' = exec (ContactForm.at_json o) (forget 0 w).
Proof.
  intros [_ Hst]. unfold dispatch.
  destruct Hst as [[Hp _] | [Hs [Hp | Hp]]]; rewrite Hp.
  - destruct i; discriminate.
  - destruct i as [|[|i]]; discriminate.
  - destruct i as [|[|i]]; cbn; try discriminate.
    intros [= <-]. repeat split; auto.
Qed.

Lemma Inv_initial : ContactForm.Inv (initial CF).
Proof.
  split.
  - exists EmptyString, EmptyString, EmptyString. reflexivity.
  - left. split; [reflexivity | left; reflexivity].
Qed.

Lemma Inv_step (e : event) (w w' : world) :
  ContactForm.Inv w -> dispatch CF e w = Some w' -> ContactForm.Inv w'.
Proof.
  intros HI Hd. destruct e as [name value | | i o | i o].
  - apply change_step in Hd as [Hf ->].
    destruct HI as [(n & e & m & Hfd) Hst]. split; [|exact Hst].
    cbn. rewrite Hfd. now apply obj_set_form.
  - destruct (submit_step _ _ HI Hd) as (n & e & m & Hfd & _ & _ & _ & ->).
    split; cbn; eauto.
  - destruct (fetch_step _ _ _ _ HI Hd) as (-> & Hs & Hp & ->).
    destruct HI as [Hfd _].
    destruct o as [r | err].
    + destruct (ok r) eqn:Hok.
      * rewrite at_fetch_ok_exec by exact Hok. split; cbn.
        -- exists EmptyString, EmptyString, EmptyString. reflexivity.
        -- rewrite Hp. cbn. left. auto.
      * rewrite at_fetch_not_ok_exec by exact Hok. split; cbn; [exact Hfd|].
        rewrite Hp. cbn. right. auto.
    + rewrite at_fetch_rejected_exec. split; cbn; [exact Hfd|].
      rewrite Hp. cbn. left. auto.
  - destruct (json_step _ _ _ _ HI Hd) as (-> & Hs & Hp & ->).
    destruct HI as [Hfd _].
    destruct o as [j | err].
    + rewrite at_json_fulfilled_exec. split; cbn; [exact Hfd|].
      rewrite Hp. cbn. left. auto.
    + rewrite at_json_rejected_exec. split; cbn; [exact Hfd|].
      rewrite Hp. cbn. left. auto.
Qed.

Lemma Inv_run (es : list event) (w w' : world) :
  ContactForm.Inv w -> run CF es w = Some w' -> ContactForm.Inv w'.
Proof.
  revert w. induction es as [|e es IH]; intros w HI; simpl.
  - now intros [= <-].
  - destruct (dispatch CF e w) as [w1|] eqn:Hd; [|discriminate].
    apply IH. exact (Inv_step _ _ _ HI Hd).
Qed.

Lemma Inv_reachable (w : world) : reachable CF w -> ContactForm.Inv w.
Proof. intros [es H]. exact (Inv_run _ _ _ Inv_initial H). Qed.

(** ** The handlers and the steps of the second form *)

Lemma handleSubmit2_exec (fd : obj) (w : world) :
  exec (ContactForm2.handleSubmit fd) w =
  {| formData := formData w; status := VStr "Sending...";
     pending := pending w ++ [TFetch ContactForm2.at_fetch];
     log := log w ++
            [ Did preventDefault;
              Did (setStatus (VStr "Sending..."));
              Requested ContactForm2.endpoint
                {| method := "POST";
                   headers := [("Content-Type", "application/json")];
                   body := JSON_stringify fd |} ] |}.
Proof.
  cbn. unfold suspend. cbn. rewrite <- !app_assoc. reflexivity.
Qed.

Lemma at_fetch2_ok_exec (r : Response) (w : world) :
  ok r = true ->
  exec (ContactForm2.at_fetch (Fulfilled r)) w =
  {| formData := ContactForm2.emptyForm;
     status := VStr "Message sent successfully!";
     pending := pending w;
     log := log w ++ [ Did (setStatus (VStr "Message sent successfully!"));
                       Did (setFormData ContactForm2.emptyForm) ] |}.
Proof.
  intros H. unfold ContactForm2.at_fetch. cbn. rewrite H. cbn.
  rewrite <- !app_assoc. reflexivity.
Qed.

Lemma at_fetch2_not_ok_exec (r : Response) (w : world) :
  ok r = false ->
  exec (ContactForm2.at_fetch (Fulfilled r)) w =
  {| formData := formData w; status := VStr "Failed to send message.";
     pending := pending w;
     log := log w ++ [Did (setStatus (VStr "Failed to send message."))] |}.
Proof.
  intros H. unfold ContactForm2.at_fetch. cbn. rewrite H. reflexivity.
Qed.

Lemma at_fetch2_rejected_exec (e : Async.error) (w : world) :
  exec (ContactForm2.at_fetch (Rejected e)) w =
  {| formData := formData w; status := VStr "An error occurred.";
     pending := pending w;
     log := log w ++
            [ Did (console_error "Error submitting form:" (LError e));
              Did (setStatus (VStr "An error occurred.")) ] |}.
Proof.
  unfold ContactForm2.at_fetch. cbn. rewrite <- !app_assoc. reflexivity.
Qed.

Lemma change_step2 (w w' : world) (name value : string) :
  dispatch CF2 (Change name value) w = Some w' ->
  is_field name = true /\
  w' = {| formData := obj_set name value (formData w); status := status w;
          pending := pending w;
          log := log w ++
                 [Did (setFormData (obj_set name value (formData w)))] |}.
Proof.
  unfold dispatch, view. cbn [render CF2 handleChange].
  rewrite change_target_render2.
  destruct (is_field name); [|discriminate].
  intros [= <-]. split; reflexivity.
Qed.

Lemma submit_step2 (w w' : world) :
  ContactForm2.Inv w ->
  dispatch CF2 Submit w = Some w' ->
  exists n e m,
    formData w = ContactForm.form n e m /\ filled n e m = true /\
    w' = {| formData := formData w; status := VStr "Sending...";
            pending := pending w ++ [TFetch ContactForm2.at_fetch];
            log := log w ++
                   [ Did preventDefault;
                     Did (setStatus (VStr "Sending..."));
                     Requested ContactForm2.endpoint
                               (snd (ContactForm2.request n e m)) ] |}.
Proof.
  intros [(n & e & m & Hfd) _].
  unfold dispatch, view. cbn [render CF2 handleSubmit].
  rewrite Hfd, can_submit_render2.
  destruct (filled n e m) eqn:E; [|discriminate].
  rewrite handleSubmit2_exec. intros [= <-].
  exists n, e, m. repeat split; auto. now rewrite Hfd.
Qed.

Lemma nth_error_Forall {A : Type} (P : A -> Prop) (l : list A) (i : nat)
      (x : A) :
  Forall P l -> nth_error l i = Some x -> P x.
Proof.
  intros HF. revert i. induction HF as [|y l Hy HF IH]; intros [|i]; simpl;
    try discriminate.
  - now intros [= <-].
  - apply IH.
Qed.

Lemma Forall_remove_nth {A : Type} (P : A -> Prop) (l : list A) (i : nat) :
  Forall P l -> Forall P (remove_nth i l).
Proof.
  intros HF. revert i. induction HF as [|y l Hy HF IH]; intros [|i]; simpl;
    auto.
Qed.

Lemma fetch_step2 (w w' : world) (i : nat) (o : settled Response) :
  ContactForm2.Inv w ->
  dispatch CF2 (FetchSettled i o) w = Some w' ->
  i < length (pending w) /\
  w' = exec (ContactForm2.at_fetch o) (forget i w).
Proof.
  intros (_ & HF & _). unfold dispatch.
  destruct (nth_error (pending w) i) as [t|] eqn:E; [|discriminate].
  assert (Hi : i < length (pending w))
    by (apply nth_error_Some; congruence).
  apply (nth_error_Forall _ _ _ _ HF) in E. subst t.
  intros [= <-]. split; [exact Hi | reflexivity].
Qed.

Lemma json_step2 (w w' : world) (i : nat) (o : settled json) :
  ContactForm2.Inv w ->
  dispatch CF2 (JsonSettled i o) w = Some w' -> False.
Proof.
  intros (_ & HF & _). unfold dispatch.
  destruct (nth_error (pending w) i) as [t|] eqn:E; [|discriminate].
  apply (nth_error_Forall _ _ _ _ HF) in E. subst t. discriminate.
Qed.

Lemma Inv2_initial : ContactForm2.Inv (initial CF2).
Proof.
  split; [|split].
  - exists EmptyString, EmptyString, EmptyString. reflexivity.
  - constructor.
  - simpl. auto.
Qed.

Lemma Inv2_step (e : event) (w w' : world) :
  ContactForm2.Inv w -> dispatch CF2 e w = Some w' -> ContactForm2.Inv w'.
Proof.
  intros HI Hd. destruct e as [name value | | i o | i o].
  - apply change_step2 in Hd as [Hf ->].
    destruct HI as [(n & e & m & Hfd) Hst]. split; [|exact Hst].
    cbn. rewrite Hfd. now apply obj_set_form.
  - destruct (submit_step2 _ _ HI Hd) as (n & e & m & Hfd & _ & ->).
    destruct HI as (_ & HF & _). split; [|split]; cbn.
    + eauto.
    + apply Forall_app. split; [exact HF | repeat constructor].
    + auto.
  - destruct (fetch_step2 _ _ _ _ HI Hd) as (_ & ->).
    destruct HI as (Hfd & HF & Hs).
    pose proof (Forall_remove_nth _ _ i HF) as HF'.
    destruct o as [r | err].
    + destruct (ok r) eqn:Hok.
      * rewrite at_fetch2_ok_exec by exact Hok. split; [|split]; cbn; auto.
        exists EmptyString, EmptyString, EmptyString. reflexivity.
      * rewrite at_fetch2_not_ok_exec by exact Hok.
        split; [|split]; cbn; auto 6.
    + rewrite at_fetch2_rejected_exec. split; [|split]; cbn; auto 6.
  - destruct (json_step2 _ _ _ _ HI Hd).
Qed.

Lemma Inv2_run (es : list event) (w w' : world) :
  ContactForm2.Inv w -> run CF2 es w = Some w' -> ContactForm2.Inv w'.
Proof.
  revert w. induction es as [|e es IH]; intros w HI; simpl.
  - now intros [= <-].
  - destruct (dispatch CF2 e w) as [w1|] eqn:Hd; [|discriminate].
    apply IH. exact (Inv2_step _ _ _ HI Hd).
Qed.

Lemma Inv2_reachable (w : world) : reachable CF2 w -> ContactForm2.Inv w.
Proof. intros [es H]. exact (Inv2_run _ _ _ Inv2_initial H). Qed.

(** ** When the events of the first form happen *)

Lemma dispatch_change (w : world) (name value : string) :
  is_field name = true ->
  dispatch CF (Change name value) w =
  Some {| formData := obj_set name value (formData w); status := status w;
          pending := pending w;
          log := log w ++
                 [Did (setFormData (obj_set name value (formData w)))] |}.
Proof.
  intros H. unfold dispatch, view. cbn [render CF handleChange].
  rewrite change_target_render, H. reflexivity.
Qed.

Lemma dispatch_submit (w : world) (n e m : string) :
  formData w = ContactForm.form n e m -> filled n e m = true ->
  status w <> ContactForm.submitting ->
  dispatch CF Submit w =
  Some {| formData := formData w; status := ContactForm.submitting;
          pending := pending w ++ [TFetch ContactForm.at_fetch];
          log := log w ++
                 [ Did preventDefault;
                   Did (setStatus ContactForm.submitting);
                   Requested ContactForm.endpoint
                             (snd (ContactForm.request n e m)) ] |}.
Proof.
  intros Hfd Hf Hs. unfold dispatch, view. cbn [render CF handleSubmit].
  rewrite Hfd, can_submit_render, Hf.
  replace (value_eqb (status w) ContactForm.submitting) with false.
  - cbn [negb andb]. rewrite handleSubmit_exec, ?Hfd. reflexivity.
  - symmetry. destruct (status w) as [|s]; [reflexivity|].
    cbn. destruct (String.eqb_spec s "submitting"); [|reflexivity].
    subst s. now destruct Hs.
Qed.

Lemma dispatch_fetch (w : world) (o : settled Response) :
  pending w = [TFetch ContactForm.at_fetch] ->
  dispatch CF (FetchSettled 0 o) w =
  Some (exec (ContactForm.at_fetch o) (forget 0 w)).
Proof. intros H. unfold dispatch. now rewrite H. Qed.

Lemma dispatch_json (w : world) (o : settled json) :
  pending w = [TJson ContactForm.at_json] ->
  dispatch CF (JsonSettled 0 o) w =
  Some (exec (ContactForm.at_json o) (forget 0 w)).
Proof. intros H. unfold dispatch. now rewrite H. Qed.

(** Edits change neither the status nor what is pending. *)
Lemma edits_frame (es : list event) (w w' : world) :
  forallb is_change es = true -> run CF es w = Some w' ->
  status w' = status w /\ pending w' = pending w.
Proof.
  revert w. induction es as [|e es IH]; intros w Hes; simpl.
  - intros [= <-]. auto.
  - simpl in Hes. apply andb_prop in Hes as [He Hes].
    destruct e as [name value | | |]; try discriminate.
    destruct (dispatch CF (Change name value) w) as [w1|] eqn:Hd;
      [|discriminate].
    apply change_step in Hd as [_ ->]. intros H.
    destruct (IH _ Hes H) as [-> ->]. auto.
Qed.

Lemma length_remove_nth {A : Type} (i : nat) (l : list A) :
  i < length l -> S (length (remove_nth i l)) = length l.
Proof.
  revert i. induction l as [|x l IH]; intros [|i]; simpl; try lia.
  intros H. rewrite IH; lia.
Qed.

(** A pending request of the second form settles at any time. *)
Lemma dispatch_fetch2 (w : world) (i : nat) (o : settled Response) :
  ContactForm2.Inv w -> i < length (pending w) ->
  dispatch CF2 (FetchSettled i o) w =
  Some (exec (ContactForm2.at_fetch o) (forget i w)).
Proof.
  intros (_ & HF & _) Hi. unfold dispatch.
  destruct (nth_error (pending w) i) as [t|] eqn:E;
    [|apply nth_error_None in E; lia].
  now rewrite (nth_error_Forall _ _ _ _ HF E).
Qed.

(** The same edits run from two states of the first form that hold the same
    fields, and leave the same fields. *)
Lemma edits_alike (es : list event) (w w' v : world) :
  forallb is_change es = true -> run CF es w = Some w' ->
  formData v = formData w ->
  exists v',
    run CF es v = Some v' /\ formData v' = formData w' /\
    status v' = status v /\ pending v' = pending v.
Proof.
  revert w v. induction es as [|e es IH]; intros w v Hes; simpl.
  - intros [= <-] Hfd. exists v. auto.
  - simpl in Hes. apply andb_prop in Hes as [He Hes].
    destruct e as [name value | | |]; try discriminate.
    destruct (dispatch CF (Change name value) w) as [w1|] eqn:Hd;
      [|discriminate].
    apply change_step in Hd as [Hf ->]. intros Hrun Hfd.
    rewrite (dispatch_change v name value Hf).
    destruct (IH _ {| formData := obj_set name value (formData v);
                      status := status v; pending := pending v;
                      log := log v ++
                             [Did (setFormData
                                     (obj_set name value (formData v)))] |}
                 Hes Hrun) as (v' & Hv & Hfd' & Hs & Hp).
    + cbn. now rewrite Hfd.
    + exists v'. auto.
Qed.

(** ** The claims *)

(** C9: a change event of either form comes from one of the three controls;
    [handleChange] gives the field named by [e.target.name] the value
    [e.target.value], leaves every other field of [formData] as it was, and
    touches neither the status nor the pending request. *)
Theorem handleChange_updates_one_field :
  forall (w w' : world) (name value : string),
    dispatch CF (Change name value) w = Some w' \/
    dispatch CF2 (Change name value) w = Some w' ->
    In name ["name"; "email"; "message"] /\
    formData w' = obj_set name value (formData w) /\
    obj_get name (formData w') = Some value /\
    (forall k, k <> name -> obj_get k (formData w') = obj_get k (formData w)) /\
    status w' = status w /\
    pending w' = pending w.
Proof.
  intros w w' name value H.
  assert (is_field name = true /\
          w' = {| formData := obj_set name value (formData w);
                  status := status w; pending := pending w;
                  log := log w ++
                         [Did (setFormData
                                 (obj_set name value (formData w)))] |})
    as [Hf ->]
    by (destruct H as [H|H]; [now apply change_step | now apply change_step2]).
  cbn. repeat split.
  - now apply is_field_In.
  - apply obj_get_set_same.
  - intros k Hk. now apply obj_get_set_other.
Qed.

Lemma handleChange_updates_one_field_witness :
  let w := Sample.after CF Sample.fill in
  let w' := Sample.after CF (Sample.fill ++ [Change "email" "ada@lovelace.uk"]) in
  formData w' = [("name", "Ada"); ("email", "ada@lovelace.uk");
                 ("message", "Hello")] /\
  (In "email" ["name"; "email"; "message"] /\
   formData w' = obj_set "email" "ada@lovelace.uk" (formData w) /\
   obj_get "email" (formData w') = Some "ada@lovelace.uk" /\
   (forall k, k <> "email" ->
              obj_get k (formData w') = obj_get k (formData w)) /\
   status w' = status w /\
   pending w' = pending w).
Proof.
  split; [reflexivity|].
  apply (handleChange_updates_one_field
           (Sample.after CF Sample.fill)
           (Sample.after CF (Sample.fill ++ [Change "email" "ada@lovelace.uk"]))
           "email" "ada@lovelace.uk").
  left. reflexivity.
Defined.

(** C1, the claim as stated fails on the second form, whose button is never
    disabled: with two requests outstanding and one of them answered by a
    500, the success response of the other arrives at the status ['Failed
    to send message.'], not at the status the submission set. *)
Lemma second_form_success_not_from_sending :
  status (Sample.after CF2
            (Sample.fill
             ++ [Submit; Submit; FetchSettled 0 (Fulfilled Sample.r500)]))
  = VStr "Failed to send message." /\
  exists w',
    dispatch CF2 (FetchSettled 0 (Fulfilled Sample.r200))
      (Sample.after CF2
         (Sample.fill
          ++ [Submit; Submit; FetchSettled 0 (Fulfilled Sample.r500)]))
    = Some w' /\
    status w' = VStr "Message sent successfully!" /\
    formData w' = [("name", EmptyString); ("email", EmptyString);
                   ("message", EmptyString)].
Proof.
  split; [reflexivity|].
  eexists. split; [reflexivity|]. split; reflexivity.
Qed.

(** C1, amended: in the first form, when a submission has been made,
    whatever the user edits while the request is outstanding, a response
    with a status from 200 to 299 takes the status from ['submitting'] to
    ['success'] and sets [formData] to the three empty fields. In the
    second form a submission sets the status to ['Sending...'] and leaves
    one more request pending; in every reachable state each pending request
    can be answered, in any order, and a response with a status from 200 to
    299 sets the status to ['Message sent successfully!'] and [formData] to
    the three empty fields, whatever the status and the fields were. *)
Theorem success_resets_fields :
  (forall (w0 w1 w2 : world) (es : list event) (r : Response),
      reachable CF w0 ->
      dispatch CF Submit w0 = Some w1 ->
      forallb is_change es = true -> run CF es w1 = Some w2 ->
      ok r = true ->
      exists w3,
        dispatch CF (FetchSettled 0 (Fulfilled r)) w2 = Some w3 /\
        status w2 = VStr "submitting" /\
        status w3 = VStr "success" /\
        formData w3 = [("name", EmptyString); ("email", EmptyString);
                       ("message", EmptyString)] /\
        pending w3 = []) /\
  (forall w0 w1 : world,
      reachable CF2 w0 ->
      dispatch CF2 Submit w0 = Some w1 ->
      status w1 = VStr "Sending..." /\
      formData w1 = formData w0 /\
      length (pending w1) = S (length (pending w0))) /\
  (forall (w : world) (i : nat) (r : Response),
      reachable CF2 w ->
      i < length (pending w) ->
      ok r = true ->
      exists w',
        dispatch CF2 (FetchSettled i (Fulfilled r)) w = Some w' /\
        status w' = VStr "Message sent successfully!" /\
        formData w' = [("name", EmptyString); ("email", EmptyString);
                       ("message", EmptyString)] /\
        S (length (pending w')) = length (pending w)).
Proof.
  split; [|split].
  - intros w0 w1 w2 es r Hr Hd Hes Hrun Hok.
    apply Inv_reachable in Hr.
    destruct (submit_step _ _ Hr Hd) as (n & e & m & _ & _ & _ & _ & ->).
    destruct (edits_frame _ _ _ Hes Hrun) as [Hs Hp]. cbn in Hs, Hp.
    eexists. rewrite (dispatch_fetch _ _ Hp).
    rewrite at_fetch_ok_exec by exact Hok. cbn.
    rewrite Hp. repeat split; auto.
  - intros w0 w1 Hr Hd. apply Inv2_reachable in Hr.
    destruct (submit_step2 _ _ Hr Hd) as (n & e & m & _ & _ & ->).
    cbn. rewrite length_app. cbn. repeat split. lia.
  - intros w i r Hr Hi Hok. apply Inv2_reachable in Hr.
    eexists. rewrite (dispatch_fetch2 _ _ _ Hr Hi).
    rewrite at_fetch2_ok_exec by exact Hok. cbn.
    repeat split. now apply length_remove_nth.
Qed.

Lemma success_resets_fields_witness :
  (exists w3,
      dispatch CF (FetchSettled 0 (Fulfilled Sample.r200))
               (Sample.after CF
                  (Sample.fill ++ [Submit; Change "message" "Hello again"]))
      = Some w3 /\
      status (Sample.after CF
                (Sample.fill ++ [Submit; Change "message" "Hello again"]))
      = VStr "submitting" /\
      status w3 = VStr "success" /\
      formData w3 = [("name", EmptyString); ("email", EmptyString);
                     ("message", EmptyString)] /\
      pending w3 = []) /\
  (status (Sample.after CF2 (Sample.fill ++ [Submit])) = VStr "Sending..." /\
   formData (Sample.after CF2 (Sample.fill ++ [Submit]))
   = formData (Sample.after CF2 Sample.fill) /\
   length (pending (Sample.after CF2 (Sample.fill ++ [Submit])))
   = S (length (pending (Sample.after CF2 Sample.fill)))) /\
  (exists w',
      dispatch CF2 (FetchSettled 1 (Fulfilled Sample.r200))
        (Sample.after CF2
           (Sample.fill ++ [Submit; Submit; Change "message" "One more"]))
      = Some w' /\
      status w' = VStr "Message sent successfully!" /\
      formData w' = [("name", EmptyString); ("email", EmptyString);
                     ("message", EmptyString)] /\
      S (length (pending w'))
      = length (pending
                  (Sample.after CF2
                     (Sample.fill
                      ++ [Submit; Submit; Change "message" "One more"])))).
Proof.
  destruct success_resets_fields as (H1 & H2 & H3).
  split; [|split].
  - apply (H1 (Sample.after CF Sample.fill)
              (Sample.after CF (Sample.fill ++ [Submit]))
              (Sample.after CF
                 (Sample.fill ++ [Submit; Change "message" "Hello again"]))
              [Change "message" "Hello again"] Sample.r200).
    + exists Sample.fill. reflexivity.
    + reflexivity.
    + reflexivity.
    + reflexivity.
    + reflexivity.
  - apply (H2 (Sample.after CF2 Sample.fill)
              (Sample.after CF2 (Sample.fill ++ [Submit]))).
    + exists Sample.fill. reflexivity.
    + reflexivity.
  - apply (H3 (Sample.after CF2
                 (Sample.fill
                  ++ [Submit; Submit; Change "message" "One more"]))
              1 Sample.r200).
    + exists (Sample.fill ++ [Submit; Submit; Change "message" "One more"]).
      reflexivity.
    + cbn. lia.
    + reflexivity.
Defined.

(** C2, the claim as stated fails on the second form: two submissions of
    the same fields are outstanding, the first is answered by a 200, which
    empties the fields, and then the second by a 500: the failed submission
    ends with the three fields empty, not with the values it was made
    with. *)
Lemma second_form_failure_with_emptied_fields :
  formData (Sample.after CF2 Sample.fill)
  = [("name", "Ada"); ("email", "ada@example.org"); ("message", "Hello")] /\
  exists w',
    dispatch CF2 (FetchSettled 0 (Fulfilled Sample.r500))
      (Sample.after CF2
         (Sample.fill
          ++ [Submit; Submit; FetchSettled 0 (Fulfilled Sample.r200)]))
    = Some w' /\
    status w' = VStr "Failed to send message." /\
    formData w' = [("name", EmptyString); ("email", EmptyString);
                   ("message", EmptyString)] /\
    formData w' <> formData (Sample.after CF2 Sample.fill).
Proof.
  split; [reflexivity|].
  eexists. split; [reflexivity|]. split; [reflexivity|].
  split; [reflexivity | discriminate].
Qed.

(** C2, amended: in the first form, a response with a status outside 200
    to 299 leaves the status at ['submitting'] until its body has been
    read; once [response.json()] has settled, either way, the status is
    ['error'], and [formData] is what it was before the submission. Neither
    of the two steps writes [formData], whatever the user has typed
    meanwhile. In the second form, in every reachable state, such a
    response to any pending request sets the status to ['Failed to send
    message.'] and leaves [formData] as it is at that moment: the values
    the submission was made with when the response comes right after it,
    but not when the success of another request has emptied them. *)
Theorem failure_keeps_fields :
  (forall (w0 w1 : world) (r : Response) (o : settled json),
      reachable CF w0 ->
      dispatch CF Submit w0 = Some w1 ->
      ok r = false ->
      exists w2 w3,
        dispatch CF (FetchSettled 0 (Fulfilled r)) w1 = Some w2 /\
        dispatch CF (JsonSettled 0 o) w2 = Some w3 /\
        status w1 = VStr "submitting" /\
        status w3 = VStr "error" /\
        formData w2 = formData w0 /\
        formData w3 = formData w0 /\
        pending w3 = []) /\
  (forall (w w' : world) (i : nat) (r : Response),
      reachable CF w ->
      ok r = false ->
      dispatch CF (FetchSettled i (Fulfilled r)) w = Some w' ->
      formData w' = formData w /\ status w' = status w) /\
  (forall (w w' : world) (i : nat) (o : settled json),
      reachable CF w ->
      dispatch CF (JsonSettled i o) w = Some w' ->
      formData w' = formData w /\ status w' = VStr "error") /\
  (forall (w : world) (i : nat) (r : Response),
      reachable CF2 w ->
      i < length (pending w) ->
      ok r = false ->
      exists w',
        dispatch CF2 (FetchSettled i (Fulfilled r)) w = Some w' /\
        status w' = VStr "Failed to send message." /\
        formData w' = formData w /\
        S (length (pending w')) = length (pending w)) /\
  (forall (w0 w1 : world) (r : Response),
      reachable CF2 w0 ->
      dispatch CF2 Submit w0 = Some w1 ->
      ok r = false ->
      exists w2,
        dispatch CF2 (FetchSettled (length (pending w0)) (Fulfilled r)) w1
        = Some w2 /\
        status w2 = VStr "Failed to send message." /\
        formData w2 = formData w0).
Proof.
  split; [|split; [|split; [|split]]].
  - intros w0 w1 r o Hr Hd Hok.
    apply Inv_reachable in Hr.
    destruct (submit_step _ _ Hr Hd) as (n & e & m & _ & _ & _ & _ & ->).
    do 2 eexists.
    split; [rewrite dispatch_fetch by reflexivity;
            rewrite at_fetch_not_ok_exec by exact Hok; reflexivity|].
    split; [rewrite dispatch_json by reflexivity; reflexivity|].
    destruct o as [j | err];
      [rewrite at_json_fulfilled_exec | rewrite at_json_rejected_exec];
      cbn; repeat split; reflexivity.
  - intros w w' i r Hr Hok Hd. apply Inv_reachable in Hr.
    destruct (fetch_step _ _ _ _ Hr Hd) as (_ & _ & _ & ->).
    rewrite at_fetch_not_ok_exec by exact Hok. split; reflexivity.
  - intros w w' i o Hr Hd. apply Inv_reachable in Hr.
    destruct (json_step _ _ _ _ Hr Hd) as (_ & _ & _ & ->).
    destruct o as [j | err];
      [rewrite at_json_fulfilled_exec | rewrite at_json_rejected_exec];
      split; reflexivity.
  - intros w i r Hr Hi Hok. apply Inv2_reachable in Hr.
    eexists. rewrite (dispatch_fetch2 _ _ _ Hr Hi).
    rewrite at_fetch2_not_ok_exec by exact Hok. cbn.
    repeat split. now apply length_remove_nth.
  - intros w0 w1 r Hr Hd Hok.
    apply Inv2_reachable in Hr.
    destruct (submit_step2 _ _ Hr Hd) as (n & e & m & _ & _ & ->).
    unfold dispatch. cbn [pending].
    rewrite nth_error_app2, Nat.sub_diag by auto. cbn [nth_error].
    eexists. rewrite at_fetch2_not_ok_exec by exact Hok. cbn.
    repeat split; auto.
Qed.

Lemma failure_keeps_fields_witness :
  (exists w2 w3,
      dispatch CF (FetchSettled 0 (Fulfilled Sample.r500))
               (Sample.after CF (Sample.fill ++ [Submit])) = Some w2 /\
      dispatch CF (JsonSettled 0 (Rejected Sample.syntax_error)) w2
      = Some w3 /\
      status (Sample.after CF (Sample.fill ++ [Submit])) = VStr "submitting" /\
      status w3 = VStr "error" /\
      formData w2 = formData (Sample.after CF Sample.fill) /\
      formData w3 = formData (Sample.after CF Sample.fill) /\
      pending w3 = []) /\
  (formData (Sample.after CF
               (Sample.fill
                ++ [Submit; Change "message" "Hello again";
                    FetchSettled 0 (Fulfilled Sample.r500)]))
   = formData (Sample.after CF
                 (Sample.fill ++ [Submit; Change "message" "Hello again"])) /\
   status (Sample.after CF
             (Sample.fill
              ++ [Submit; Change "message" "Hello again";
                  FetchSettled 0 (Fulfilled Sample.r500)]))
   = status (Sample.after CF
               (Sample.fill ++ [Submit; Change "message" "Hello again"]))) /\
  (formData (Sample.after CF
               (Sample.fill
                ++ [Submit; FetchSettled 0 (Fulfilled Sample.r500);
                    Change "message" "Hello again";
                    JsonSettled 0 (Fulfilled (JObject []))]))
   = formData (Sample.after CF
                 (Sample.fill
                  ++ [Submit; FetchSettled 0 (Fulfilled Sample.r500);
                      Change "message" "Hello again"])) /\
   status (Sample.after CF
             (Sample.fill
              ++ [Submit; FetchSettled 0 (Fulfilled Sample.r500);
                  Change "message" "Hello again";
                  JsonSettled 0 (Fulfilled (JObject []))]))
   = VStr "error") /\
  (exists w',
      dispatch CF2 (FetchSettled 1 (Fulfilled Sample.r500))
        (Sample.after CF2
           (Sample.fill ++ [Submit; Submit; Change "message" "One more"]))
      = Some w' /\
      status w' = VStr "Failed to send message." /\
      formData w'
      = formData
          (Sample.after CF2
             (Sample.fill ++ [Submit; Submit; Change "message" "One more"]))
      /\
      S (length (pending w'))
      = length (pending
                  (Sample.after CF2
                     (Sample.fill
                      ++ [Submit; Submit; Change "message" "One more"])))) /\
  (exists w2,
      dispatch CF2 (FetchSettled 0 (Fulfilled Sample.r500))
               (Sample.after CF2 (Sample.fill ++ [Submit])) = Some w2 /\
      status w2 = VStr "Failed to send message." /\
      formData w2 = formData (Sample.after CF2 Sample.fill)).
Proof.
  destruct failure_keeps_fields as (H1 & H2 & H3 & H5 & H4).
  split; [|split; [|split; [|split]]].
  - apply (H1 (Sample.after CF Sample.fill)
              (Sample.after CF (Sample.fill ++ [Submit]))
              Sample.r500 (Rejected Sample.syntax_error)).
    + exists Sample.fill. reflexivity.
    + reflexivity.
    + reflexivity.
  - apply (H2 (Sample.after CF
                 (Sample.fill ++ [Submit; Change "message" "Hello again"]))
              (Sample.after CF
                 (Sample.fill
                  ++ [Submit; Change "message" "Hello again";
                      FetchSettled 0 (Fulfilled Sample.r500)]))
              0 Sample.r500).
    + exists (Sample.fill ++ [Submit; Change "message" "Hello again"]).
      reflexivity.
    + reflexivity.
    + reflexivity.
  - apply (H3 (Sample.after CF
                 (Sample.fill
                  ++ [Submit; FetchSettled 0 (Fulfilled Sample.r500);
                      Change "message" "Hello again"]))
              (Sample.after CF
                 (Sample.fill
                  ++ [Submit; FetchSettled 0 (Fulfilled Sample.r500);
                      Change "message" "Hello again";
                      JsonSettled 0 (Fulfilled (JObject []))]))
              0 (Fulfilled (JObject []))).
    + exists (Sample.fill
              ++ [Submit; FetchSettled 0 (Fulfilled Sample.r500);
                  Change "message" "Hello again"]).
      reflexivity.
    + reflexivity.
  - apply (H5 (Sample.after CF2
                 (Sample.fill
                  ++ [Submit; Submit; Change "message" "One more"]))
              1 Sample.r500).
    + exists (Sample.fill ++ [Submit; Submit; Change "message" "One more"]).
      reflexivity.
    + cbn. lia.
    + reflexivity.
  - apply (H4 (Sample.after CF2 Sample.fill)
              (Sample.after CF2 (Sample.fill ++ [Submit])) Sample.r500).
    + exists Sample.fill. reflexivity.
    + reflexivity.
    + reflexivity.
Defined.

(** C10: in the first form, a response with a status outside 200 to 299
    does not set the status by itself: the handler first awaits
    [response.json()], the status staying ['submitting']. If the body parses,
    the [else] branch sets ['error'] and logs the parsed body; if the parse
    throws, the [catch] block sets ['error'] and logs the exception. The
    final status is ['error'] in both cases. *)
Theorem error_status_whatever_the_body :
  forall (w0 w1 : world) (r : Response),
    reachable CF w0 ->
    dispatch CF Submit w0 = Some w1 ->
    ok r = false ->
    exists w2,
      dispatch CF (FetchSettled 0 (Fulfilled r)) w1 = Some w2 /\
      status w2 = VStr "submitting" /\
      log w2 = log w1 ++ [ReadJson r] /\
      (forall errorData : json,
          exists w3,
            dispatch CF (JsonSettled 0 (Fulfilled errorData)) w2 = Some w3 /\
            status w3 = VStr "error" /\
            pending w3 = [] /\
            log w3 = log w2 ++
                     [ Did (setStatus (VStr "error"));
                       Did (console_error "Form submission error:"
                                          (LJson errorData)) ]) /\
      (forall thrown : Async.error,
          exists w3,
            dispatch CF (JsonSettled 0 (Rejected thrown)) w2 = Some w3 /\
            status w3 = VStr "error" /\
            pending w3 = [] /\
            log w3 = log w2 ++
                     [ Did (setStatus (VStr "error"));
                       Did (console_error "Network or other error:"
                                          (LError thrown)) ]).
Proof.
  intros w0 w1 r Hr Hd Hok.
  apply Inv_reachable in Hr.
  destruct (submit_step _ _ Hr Hd) as (n & e & m & _ & _ & _ & _ & ->).
  eexists.
  split; [rewrite dispatch_fetch by reflexivity;
          rewrite at_fetch_not_ok_exec by exact Hok; reflexivity|].
  split; [reflexivity|]. split; [reflexivity|]. split.
  - intros j. eexists. rewrite dispatch_json by reflexivity.
    rewrite at_json_fulfilled_exec. cbn. repeat split.
  - intros err. eexists. rewrite dispatch_json by reflexivity.
    rewrite at_json_rejected_exec. cbn. repeat split.
Qed.

Lemma error_status_whatever_the_body_witness :
  exists w2,
    dispatch CF (FetchSettled 0 (Fulfilled Sample.r500))
             (Sample.after CF (Sample.fill ++ [Submit])) = Some w2 /\
    status w2 = VStr "submitting" /\
    log w2 = log (Sample.after CF (Sample.fill ++ [Submit]))
             ++ [ReadJson Sample.r500] /\
    (forall errorData : json,
        exists w3,
          dispatch CF (JsonSettled 0 (Fulfilled errorData)) w2 = Some w3 /\
          status w3 = VStr "error" /\
          pending w3 = [] /\
          log w3 = log w2 ++
                   [ Did (setStatus (VStr "error"));
                     Did (console_error "Form submission error:"
                                        (LJson errorData)) ]) /\
    (forall thrown : Async.error,
        exists w3,
          dispatch CF (JsonSettled 0 (Rejected thrown)) w2 = Some w3 /\
          status w3 = VStr "error" /\
          pending w3 = [] /\
          log w3 = log w2 ++
                   [ Did (setStatus (VStr "error"));
                     Did (console_error "Network or other error:"
                                        (LError thrown)) ]).
Proof.
  apply (error_status_whatever_the_body
           (Sample.after CF Sample.fill)
           (Sample.after CF (Sample.fill ++ [Submit])) Sample.r500).
  - exists Sample.fill. reflexivity.
  - reflexivity.
  - reflexivity.
Defined.

(** C3, the claim as stated fails on the second form: after the same
    submission, a transport failure and a status 500 leave two different
    status strings, neither of them ['error'], and so two different rendered
    messages. *)
Lemma second_form_failures_differ :
  exists wa wb,
    dispatch CF2 (FetchSettled 0 (Rejected Sample.network_error))
             (Sample.after CF2 (Sample.fill ++ [Submit])) = Some wa /\
    dispatch CF2 (FetchSettled 0 (Fulfilled Sample.r500))
             (Sample.after CF2 (Sample.fill ++ [Submit])) = Some wb /\
    status wa = VStr "An error occurred." /\
    status wb = VStr "Failed to send message." /\
    status wa <> status wb /\
    view CF2 wa <> view CF2 wb.
Proof.
  do 2 eexists.
  split; [reflexivity|]. split; [reflexivity|].
  split; [reflexivity|]. split; [reflexivity|].
  split; discriminate.
Qed.

(** C3, amended: in the first form, whatever the user edits while the
    request is outstanding, a transport failure sets the status to
    ['error'] and writes none of the fields: [formData] stays what it is
    when the failure arrives. A non-success response to the same request,
    once its body has been read (whatever the reading gives, and whatever
    is edited before it ends), sets ['error'] and writes none of the fields
    either, and ends in the state, and so the rendered tree, that the
    transport failure followed by the same edits gives. In the second form,
    in every reachable state, both failures of any pending request leave
    [formData] as it is; the status is ['An error occurred.'] after a
    transport failure and ['Failed to send message.'] after a non-success
    response. *)
Theorem failures_surface_alike :
  (forall (w0 w1 w : world) (es1 es2 : list event) (thrown : Async.error)
          (r : Response) (o : settled json),
      reachable CF w0 ->
      dispatch CF Submit w0 = Some w1 ->
      forallb is_change es1 = true -> run CF es1 w1 = Some w ->
      forallb is_change es2 = true ->
      ok r = false ->
      exists wa wb,
        dispatch CF (FetchSettled 0 (Rejected thrown)) w = Some wa /\
        dispatch CF (FetchSettled 0 (Fulfilled r)) w = Some wb /\
        status wa = VStr "error" /\
        formData wa = formData w /\
        pending wa = [] /\
        status wb = VStr "submitting" /\
        formData wb = formData w /\
        forall wb',
          run CF es2 wb = Some wb' ->
          exists wa' wc,
            run CF es2 wa = Some wa' /\
            dispatch CF (JsonSettled 0 o) wb' = Some wc /\
            status wc = VStr "error" /\
            formData wc = formData wb' /\
            state_of wc = state_of wa' /\
            view CF wc = view CF wa') /\
  (forall (w : world) (i : nat) (thrown : Async.error) (r : Response),
      reachable CF2 w ->
      i < length (pending w) ->
      ok r = false ->
      exists wa wb,
        dispatch CF2 (FetchSettled i (Rejected thrown)) w = Some wa /\
        dispatch CF2 (FetchSettled i (Fulfilled r)) w = Some wb /\
        status wa = VStr "An error occurred." /\
        status wb = VStr "Failed to send message." /\
        formData wa = formData w /\
        formData wb = formData w /\
        pending wa = pending wb).
Proof.
  split.
  - intros w0 w1 w es1 es2 thrown r o Hr Hd Hes1 Hrun1 Hes2 Hok.
    apply Inv_reachable in Hr.
    destruct (submit_step _ _ Hr Hd) as (n & e & m & _ & _ & _ & _ & ->).
    destruct (edits_frame _ _ _ Hes1 Hrun1) as [Hs Hp]. cbn in Hs, Hp.
    do 2 eexists.
    split; [rewrite (dispatch_fetch _ _ Hp); reflexivity|].
    split; [rewrite (dispatch_fetch _ _ Hp);
            rewrite at_fetch_not_ok_exec by exact Hok; reflexivity|].
    rewrite at_fetch_rejected_exec. cbn [status formData pending forget].
    rewrite Hp. cbn [remove_nth app].
    split; [reflexivity|]. split; [reflexivity|]. split; [reflexivity|].
    split; [exact Hs|]. split; [reflexivity|].
    intros wb' Hrun2.
    destruct (edits_frame _ _ _ Hes2 Hrun2) as [Hs2 Hp2].
    cbn in Hs2, Hp2.
    destruct (edits_alike es2 _ wb'
                {| formData := formData w; status := ContactForm.error;
                   pending := [];
                   log := log w ++
                          [ Did (setStatus ContactForm.error);
                            Did (console_error "Network or other error:"
                                               (LError thrown)) ] |}
                Hes2 Hrun2 eq_refl)
      as (wa' & Hrun & Hfd & Hsa & Hpa).
    cbn in Hsa, Hpa.
    exists wa'. eexists. split; [exact Hrun|].
    split; [rewrite (dispatch_json _ _ Hp2); reflexivity|].
    assert (exists l,
               exec (ContactForm.at_json o) (forget 0 wb')
               = {| formData := formData wb'; status := ContactForm.error;
                    pending := []; log := l |}) as [l ->].
    { destruct o as [j | err];
        [rewrite at_json_fulfilled_exec | rewrite at_json_rejected_exec];
        cbn [formData status pending log forget]; rewrite Hp2;
        eexists; reflexivity. }
    unfold state_of, view. cbn [formData status pending].
    rewrite Hfd, Hsa, Hpa. repeat split; reflexivity.
  - intros w i thrown r Hr Hi Hok. apply Inv2_reachable in Hr.
    do 2 eexists. rewrite !(dispatch_fetch2 _ _ _ Hr Hi).
    rewrite at_fetch2_rejected_exec.
    rewrite at_fetch2_not_ok_exec by exact Hok. cbn.
    repeat split; reflexivity.
Qed.

Lemma failures_surface_alike_witness :
  (exists wa wb,
      dispatch CF (FetchSettled 0 (Rejected Sample.network_error))
        (Sample.after CF
           (Sample.fill ++ [Submit; Change "message" "Hello again"]))
      = Some wa /\
      dispatch CF (FetchSettled 0 (Fulfilled Sample.r500))
        (Sample.after CF
           (Sample.fill ++ [Submit; Change "message" "Hello again"]))
      = Some wb /\
      status wa = VStr "error" /\
      formData wa
      = formData (Sample.after CF
                    (Sample.fill ++ [Submit; Change "message" "Hello again"]))
      /\
      pending wa = [] /\
      status wb = VStr "submitting" /\
      formData wb
      = formData (Sample.after CF
                    (Sample.fill ++ [Submit; Change "message" "Hello again"]))
      /\
      forall wb',
        run CF [Change "name" "Ada L."] wb = Some wb' ->
        exists wa' wc,
          run CF [Change "name" "Ada L."] wa = Some wa' /\
          dispatch CF (JsonSettled 0 (Fulfilled (JObject []))) wb'
          = Some wc /\
          status wc = VStr "error" /\
          formData wc = formData wb' /\
          state_of wc = state_of wa' /\
          view CF wc = view CF wa') /\
  (exists wa wb,
      dispatch CF2 (FetchSettled 1 (Rejected Sample.network_error))
        (Sample.after CF2
           (Sample.fill ++ [Submit; Submit; Change "message" "One more"]))
      = Some wa /\
      dispatch CF2 (FetchSettled 1 (Fulfilled Sample.r500))
        (Sample.after CF2
           (Sample.fill ++ [Submit; Submit; Change "message" "One more"]))
      = Some wb /\
      status wa = VStr "An error occurred." /\
      status wb = VStr "Failed to send message." /\
      formData wa
      = formData
          (Sample.after CF2
             (Sample.fill ++ [Submit; Submit; Change "message" "One more"]))
      /\
      formData wb
      = formData
          (Sample.after CF2
             (Sample.fill ++ [Submit; Submit; Change "message" "One more"]))
      /\
      pending wa = pending wb).
Proof.
  split.
  - apply (proj1 failures_surface_alike
             (Sample.after CF Sample.fill)
             (Sample.after CF (Sample.fill ++ [Submit]))
             (Sample.after CF
                (Sample.fill ++ [Submit; Change "message" "Hello again"]))
             [Change "message" "Hello again"] [Change "name" "Ada L."]
             Sample.network_error Sample.r500 (Fulfilled (JObject []))).
    + exists Sample.fill. reflexivity.
    + reflexivity.
    + reflexivity.
    + reflexivity.
    + reflexivity.
    + reflexivity.
  - apply (proj2 failures_surface_alike
             (Sample.after CF2
                (Sample.fill ++ [Submit; Submit; Change "message" "One more"]))
             1 Sample.network_error Sample.r500).
    + exists (Sample.fill ++ [Submit; Submit; Change "message" "One more"]).
      reflexivity.
    + cbn. lia.
    + reflexivity.
Defined.

(** ** Requests and status changes, step by step *)

Lemma requests_app (l1 l2 : list effect) :
  requests (l1 ++ l2) = requests l1 ++ requests l2.
Proof. unfold requests. apply flat_map_app. Qed.

(** What each step of the first form adds to the log. *)
Lemma step_log (e : event) (w w' : world) :
  ContactForm.Inv w -> dispatch CF e w = Some w' ->
  match e with
  | Change name value =>
      log w' = log w ++ [Did (setFormData (obj_set name value (formData w)))]
  | Submit =>
      exists n e m,
        formData w = ContactForm.form n e m /\
        log w' = log w ++
                 [ Did preventDefault; Did (setStatus (VStr "submitting"));
                   Requested ContactForm.endpoint
                             (snd (ContactForm.request n e m)) ]
  | FetchSettled _ (Fulfilled r) =>
      if ok r
      then log w' = log w ++ [ Did (setStatus (VStr "success"));
                               Did (setFormData ContactForm.emptyForm) ]
      else log w' = log w ++ [ReadJson r]
  | FetchSettled _ (Rejected thrown) | JsonSettled _ (Rejected thrown) =>
      log w' = log w ++
               [ Did (setStatus (VStr "error"));
                 Did (console_error "Network or other error:"
                                    (LError thrown)) ]
  | JsonSettled _ (Fulfilled errorData) =>
      log w' = log w ++
               [ Did (setStatus (VStr "error"));
                 Did (console_error "Form submission error:"
                                    (LJson errorData)) ]
  end.
Proof.
  intros HI Hd. destruct e as [name value | | i o | i o].
  - apply change_step in Hd as [_ ->]. reflexivity.
  - destruct (submit_step _ _ HI Hd) as (n & e & m & Hfd & _ & _ & _ & ->).
    exists n, e, m. split; [exact Hfd | reflexivity].
  - destruct (fetch_step _ _ _ _ HI Hd) as (_ & _ & _ & ->).
    destruct o as [r | thrown].
    + destruct (ok r) eqn:Hok.
      * now rewrite at_fetch_ok_exec.
      * now rewrite at_fetch_not_ok_exec.
    + now rewrite at_fetch_rejected_exec.
  - destruct (json_step _ _ _ _ HI Hd) as (_ & _ & _ & ->).
    destruct o as [j | thrown].
    + now rewrite at_json_fulfilled_exec.
    + now rewrite at_json_rejected_exec.
Qed.

(** Only a submission sends a request, and it sends one. *)
Lemma step_requests (e : event) (w w' : world) :
  ContactForm.Inv w -> dispatch CF e w = Some w' ->
  match e with
  | Submit =>
      exists n e m,
        formData w = ContactForm.form n e m /\
        requests (log w') = requests (log w) ++ [ContactForm.request n e m]
  | _ => requests (log w') = requests (log w)
  end.
Proof.
  intros HI Hd. pose proof (step_log _ _ _ HI Hd) as H.
  destruct e as [name value | | i [r | thrown] | i [j | thrown]];
    try (rewrite H, requests_app; cbn; apply app_nil_r).
  - destruct H as (n & e & m & Hfd & ->). exists n, e, m.
    split; [exact Hfd|]. now rewrite requests_app.
  - destruct (ok r); rewrite H, requests_app; cbn; apply app_nil_r.
Qed.

(** How each step of the first form changes the status. *)
Lemma step_status (e : event) (w w' : world) :
  ContactForm.Inv w -> dispatch CF e w = Some w' ->
  status w' = status w \/
  (e = Submit /\ status w <> ContactForm.submitting /\
   status w' = ContactForm.submitting) \/
  (status w = ContactForm.submitting /\
   (status w' = ContactForm.success \/ status w' = ContactForm.error)).
Proof.
  intros HI Hd. destruct e as [name value | | i o | i o].
  - apply change_step in Hd as [_ ->]. left. reflexivity.
  - destruct (submit_step _ _ HI Hd) as (n & e & m & _ & _ & _ & Hs & ->).
    right. left. auto.
  - destruct (fetch_step _ _ _ _ HI Hd) as (_ & Hs & _ & ->).
    destruct o as [r | thrown].
    + destruct (ok r) eqn:Hok.
      * rewrite at_fetch_ok_exec by exact Hok. right. right. auto.
      * rewrite at_fetch_not_ok_exec by exact Hok. left. reflexivity.
    + rewrite at_fetch_rejected_exec. right. right. auto.
  - destruct (json_step _ _ _ _ HI Hd) as (_ & Hs & _ & ->).
    destruct o as [j | thrown].
    + rewrite at_json_fulfilled_exec. right. right. auto.
    + rewrite at_json_rejected_exec. right. right. auto.
Qed.

Lemma Inv_status (w : world) :
  ContactForm.Inv w ->
  In (status w)
     [ContactForm.idle; ContactForm.submitting; ContactForm.success;
      ContactForm.error].
Proof.
  intros [_ [[_ [H | [H | H]]] | [H _]]]; rewrite H; simpl; auto.
Qed.

(** C4, the claim as stated fails on the second form: its button has no
    [disabled] attribute, and while the status is ['Sending...'] and one
    request is outstanding a second submission is dispatched and sends a
    second request. *)
Lemma second_form_double_submit :
  status (Sample.after CF2 (Sample.fill ++ [Submit])) = VStr "Sending..." /\
  length (pending (Sample.after CF2 (Sample.fill ++ [Submit]))) = 1 /\
  buttons_disabled (view CF2 (Sample.after CF2 (Sample.fill ++ [Submit])))
  = false /\
  exists w',
    dispatch CF2 Submit (Sample.after CF2 (Sample.fill ++ [Submit]))
    = Some w' /\
    length (pending w') = 2 /\
    length (requests (log w')) = 2.
Proof.
  split; [reflexivity|]. split; [reflexivity|]. split; [reflexivity|].
  eexists. split; [reflexivity|]. split; reflexivity.
Qed.

(** C4, amended: in every reachable state of the first form a continuation
    is pending exactly when the status is ['submitting'], and at most one
    is; while the status is ['submitting'] the submit button is rendered
    disabled, a submit event is not dispatched, and no step sends a
    request. The submit button of the second form is never rendered
    disabled. *)
Theorem no_second_submission_while_submitting :
  (forall w : world,
      reachable CF w ->
      (pending w <> [] <-> status w = VStr "submitting") /\
      length (pending w) <= 1 /\
      (status w = VStr "submitting" ->
       buttons_disabled (view CF w) = true /\
       dispatch CF Submit w = None /\
       forall (e : event) (w' : world),
         dispatch CF e w = Some w' -> requests (log w') = requests (log w))) /\
  (forall w : world, buttons_disabled (view CF2 w) = false).
Proof.
  split.
  - intros w Hr. apply Inv_reachable in Hr. split; [|split].
    + destruct Hr as [_ [[Hp Hst] | [Hs Hp]]].
      * rewrite Hp. split; [congruence|]. intros H.
        destruct Hst as [E | [E | E]]; rewrite E in H; discriminate.
      * split; [intros _; exact Hs|]. intros _.
        destruct Hp as [Hp | Hp]; rewrite Hp; discriminate.
    + destruct Hr as [_ [[Hp _] | [_ [Hp | Hp]]]]; rewrite Hp; simpl; lia.
    + intros Hs. unfold view, dispatch. cbn [render CF].
      assert (Hno : can_submit (ContactForm.render (formData w) (status w))
                    = false) by (rewrite Hs; reflexivity).
      split; [rewrite Hs; reflexivity|].
      split; [unfold view; cbn [render CF]; now rewrite Hno|].
      intros e w' Hd. pose proof (step_requests _ _ _ Hr Hd) as H.
      destruct e; try exact H.
      unfold dispatch, view in Hd. cbn [render CF] in Hd.
      rewrite Hno in Hd. discriminate.
  - intros w. unfold view. cbn [render CF2].
    unfold ContactForm2.render, ContactForm2.status_line.
    destruct (status w) as [|s]; destruct (truthy _); reflexivity.
Qed.

Lemma no_second_submission_while_submitting_witness :
  status (Sample.after CF (Sample.fill ++ [Submit])) = VStr "submitting" /\
  length (pending (Sample.after CF (Sample.fill ++ [Submit]))) = 1 /\
  buttons_disabled (view CF (Sample.after CF (Sample.fill ++ [Submit])))
  = true /\
  dispatch CF Submit (Sample.after CF (Sample.fill ++ [Submit])) = None.
Proof.
  destruct (proj1 no_second_submission_while_submitting
              (Sample.after CF (Sample.fill ++ [Submit])))
    as (_ & _ & H).
  - exists (Sample.fill ++ [Submit]). reflexivity.
  - destruct (H eq_refl) as (Hb & Hd & _).
    split; [reflexivity|]. split; [reflexivity|]. split; assumption.
Defined.

(** C5, the claim as stated fails: after a successful submission the status
    is ['success']; the user types again and submits, and the status goes
    from ['success'] to ['submitting'], which is not among the listed
    transitions. *)
Lemma success_then_submitting :
  reachable CF
    (Sample.after CF
       (Sample.fill ++ [Submit; FetchSettled 0 (Fulfilled Sample.r200)]
        ++ Sample.fill)) /\
  status
    (Sample.after CF
       (Sample.fill ++ [Submit; FetchSettled 0 (Fulfilled Sample.r200)]
        ++ Sample.fill)) = VStr "success" /\
  exists w',
    dispatch CF Submit
      (Sample.after CF
         (Sample.fill ++ [Submit; FetchSettled 0 (Fulfilled Sample.r200)]
          ++ Sample.fill)) = Some w' /\
    status w' = VStr "submitting" /\
    ContactForm.spec_transition (VStr "success") (VStr "submitting") = false.
Proof.
  split.
  - exists (Sample.fill
            ++ [Submit; FetchSettled 0 (Fulfilled Sample.r200)]
            ++ Sample.fill).
    reflexivity.
  - split; [reflexivity|].
    eexists. split; [reflexivity|]. split; reflexivity.
Qed.

(** C5, amended: in every reachable state of the first form the status is
    [null] (idle), ['submitting'], ['success'] or ['error'], and a step that
    changes it follows idle -> submitting, submitting -> success,
    submitting -> error, error -> submitting or success -> submitting:
    a submission from any status but ['submitting'], and the outcome of the
    request from ['submitting']. In every reachable state of the second form
    the status is one of its five strings. *)
Theorem status_transitions :
  (forall w : world,
      reachable CF w ->
      In (status w) [VNull; VStr "submitting"; VStr "success"; VStr "error"] /\
      forall (e : event) (w' : world),
        dispatch CF e w = Some w' ->
        status w' = status w \/
        ContactForm.transition (status w) (status w') = true) /\
  (forall w : world,
      reachable CF2 w ->
      In (status w)
         [ VStr EmptyString; VStr "Sending...";
           VStr "Message sent successfully!";
           VStr "Failed to send message."; VStr "An error occurred." ]).
Proof.
  split.
  - intros w Hr. apply Inv_reachable in Hr. split; [now apply Inv_status|].
    intros e w' Hd.
    destruct (step_status _ _ _ Hr Hd)
      as [H | [(_ & Hn & ->) | (-> & [-> | ->])]]; auto.
    right. pose proof (Inv_status _ Hr) as Hin. simpl in Hin.
    destruct Hin as [E | [E | [E | [E | []]]]]; rewrite <- E in *;
      try reflexivity. now destruct Hn.
  - intros w Hr. apply Inv2_reachable in Hr. apply Hr.
Qed.

Lemma status_transitions_witness :
  (In (status (Sample.after CF (Sample.fill ++ [Submit])))
      [VNull; VStr "submitting"; VStr "success"; VStr "error"] /\
   forall (e : event) (w' : world),
     dispatch CF e (Sample.after CF (Sample.fill ++ [Submit])) = Some w' ->
     status w' = status (Sample.after CF (Sample.fill ++ [Submit])) \/
     ContactForm.transition
       (status (Sample.after CF (Sample.fill ++ [Submit]))) (status w')
     = true) /\
  In (status (Sample.after CF2 (Sample.fill ++ [Submit])))
     [ VStr EmptyString; VStr "Sending...";
       VStr "Message sent successfully!";
       VStr "Failed to send message."; VStr "An error occurred." ].
Proof.
  split.
  - apply (proj1 status_transitions
             (Sample.after CF (Sample.fill ++ [Submit]))).
    exists (Sample.fill ++ [Submit]). reflexivity.
  - apply (proj2 status_transitions
             (Sample.after CF2 (Sample.fill ++ [Submit]))).
    exists (Sample.fill ++ [Submit]). reflexivity.
Defined.

Lemma step_requests2 (e : event) (w w' : world) :
  ContactForm2.Inv w -> dispatch CF2 e w = Some w' ->
  match e with
  | Submit =>
      exists n e m,
        formData w = ContactForm.form n e m /\
        requests (log w') = requests (log w) ++ [ContactForm2.request n e m]
  | _ => requests (log w') = requests (log w)
  end.
Proof.
  intros HI Hd. destruct e as [name value | | i o | i o].
  - apply change_step2 in Hd as [_ ->]. cbn [log].
    rewrite requests_app. apply app_nil_r.
  - destruct (submit_step2 _ _ HI Hd) as (n & e & m & Hfd & _ & ->).
    exists n, e, m. split; [exact Hfd|]. cbn [log].
    now rewrite requests_app.
  - destruct (fetch_step2 _ _ _ _ HI Hd) as (_ & ->).
    destruct o as [r | thrown].
    + destruct (ok r) eqn:Hok;
        [rewrite at_fetch2_ok_exec by exact Hok
        |rewrite at_fetch2_not_ok_exec by exact Hok];
        cbn [log forget]; rewrite requests_app; apply app_nil_r.
    + rewrite at_fetch2_rejected_exec. cbn [log forget].
      rewrite requests_app. apply app_nil_r.
  - destruct (json_step2 _ _ _ _ HI Hd).
Qed.

(** The text [JSON.stringify] gives for three sample values. *)
Example json_of_sample :
  ContactForm.json_of "Ada" "ada@example.org" "Hello" =
  ("{" ++ dquote ++ "name" ++ dquote ++ ":" ++ dquote ++ "Ada" ++ dquote
   ++ "," ++ dquote ++ "email" ++ dquote ++ ":"
   ++ dquote ++ "ada@example.org" ++ dquote
   ++ "," ++ dquote ++ "message" ++ dquote ++ ":"
   ++ dquote ++ "Hello" ++ dquote ++ "}")%string.
Proof. reflexivity. Qed.

(** ** The text of the request body *)

Lemma append_assoc (a b c : string) :
  ((a ++ b) ++ c = a ++ (b ++ c))%string.
Proof. induction a as [|x a IH]; simpl; [reflexivity | now rewrite IH]. Qed.

Lemma read_chars_quote_char (c : ascii) (rest : string) :
  JsonText.read_chars (quote_char c ++ rest)%string
  = JsonText.push c (JsonText.read_chars rest).
Proof.
  destruct c as [b0 b1 b2 b3 b4 b5 b6 b7].
  destruct b0, b1, b2, b3, b4, b5, b6, b7; reflexivity.
Qed.

Lemma read_chars_quote_chars (s rest : string) :
  JsonText.read_chars (quote_chars s ++ String dquote_char rest)%string
  = Some (s, rest).
Proof.
  induction s as [|c s IH].
  - reflexivity.
  - cbn [quote_chars]. rewrite append_assoc, read_chars_quote_char, IH.
    reflexivity.
Qed.

Lemma read_quoted_quote (s rest : string) :
  JsonText.read_quoted (quote s ++ rest)%string = Some (s, rest).
Proof.
  unfold quote, dquote. cbn [String.append JsonText.read_quoted].
  rewrite append_assoc. cbn [String.append].
  change (Ascii.eqb dquote_char dquote_char) with true. cbv iota.
  apply read_chars_quote_chars.
Qed.

Lemma read_member_member (k v rest : string) :
  JsonText.read_member k (member (k, v) ++ rest)%string = Some (v, rest).
Proof.
  unfold JsonText.read_member, member. cbn [fst snd].
  rewrite append_assoc, read_quoted_quote, String.eqb_refl.
  cbn [String.append JsonText.after_literal].
  change (Ascii.eqb ":" ":") with true. cbv iota.
  apply read_quoted_quote.
Qed.

Lemma read_form_json_of (n e m : string) :
  JsonText.read_form (ContactForm.json_of n e m) = Some (n, e, m).
Proof.
  unfold JsonText.read_form, ContactForm.json_of.
  cbn [String.append JsonText.after_literal].
  change (Ascii.eqb "{" "{") with true. cbv iota.
  rewrite append_assoc, read_member_member.
  cbn [String.append JsonText.after_literal].
  change (Ascii.eqb "," ",") with true. cbv iota.
  rewrite append_assoc, read_member_member.
  cbn [String.append JsonText.after_literal].
  change (Ascii.eqb "," ",") with true. cbv iota.
  rewrite read_member_member. reflexivity.
Qed.

Lemma quote_chars_plain (s : string) :
  JsonText.plain s = true -> quote_chars s = s.
Proof.
  induction s as [|c s IH]; [reflexivity|].
  cbn [JsonText.plain quote_chars]. intros H.
  apply andb_prop in H as [Hc Hs]. rewrite (IH Hs).
  destruct c as [b0 b1 b2 b3 b4 b5 b6 b7].
  destruct b0, b1, b2, b3, b4, b5, b6, b7;
    try discriminate Hc; reflexivity.
Qed.

Lemma json_of_plain (n e m : string) :
  JsonText.plain n && JsonText.plain e && JsonText.plain m = true ->
  ContactForm.json_of n e m =
  (let q := String (ascii_of_nat 34) EmptyString in
   "{" ++ q ++ "name" ++ q ++ ":" ++ q ++ n ++ q ++ ","
   ++ q ++ "email" ++ q ++ ":" ++ q ++ e ++ q ++ ","
   ++ q ++ "message" ++ q ++ ":" ++ q ++ m ++ q ++ "}")%string.
Proof.
  intros H. apply andb_prop in H as [H Hm]. apply andb_prop in H as [Hn He].
  unfold ContactForm.json_of, member, quote. cbn [fst snd].
  rewrite (quote_chars_plain n Hn), (quote_chars_plain e He),
    (quote_chars_plain m Hm).
  cbn [quote_chars]. cbv zeta.
  repeat rewrite append_assoc. reflexivity.
Qed.

(** The text [JSON.stringify] gives when the values hold a quote, a
    backslash and a line feed: each is written as its escape. *)
Example json_of_escapes :
  ContactForm.json_of
    (String "A" (String (ascii_of_nat 34) "da"))
    (String "a" (String (ascii_of_nat 92) "b"))
    (String "H" (String (ascii_of_nat 10) "i"))
  = (let q := String (ascii_of_nat 34) EmptyString in
     let b := String (ascii_of_nat 92) EmptyString in
     "{" ++ q ++ "name" ++ q ++ ":" ++ q ++ "A" ++ b ++ q ++ "da" ++ q ++ ","
     ++ q ++ "email" ++ q ++ ":" ++ q ++ "a" ++ b ++ b ++ "b" ++ q ++ ","
     ++ q ++ "message" ++ q ++ ":" ++ q ++ "H" ++ b ++ "ni" ++ q
     ++ "}")%string.
Proof. reflexivity. Qed.

(** C6: in every reachable state of either form, a submit event runs
    [handleSubmit] up to its [await]: it calls [e.preventDefault()], sets the
    status to ['submitting'] (['Sending...'] in the second form), and calls
    [fetch] once, on the endpoint, with method POST, the one header
    [Content-Type: application/json], and as body the JSON text of
    [formData], which holds the three fields name, email and message and
    nothing else. That text reads back as the three values, and when they
    hold no quote, no backslash and no control character it is, letter for
    letter, the object with the three members name, email and message
    around them. No other step sends a request. *)
Theorem submit_posts_once :
  (forall w w' : world,
      reachable CF w ->
      dispatch CF Submit w = Some w' ->
      exists n e m,
        formData w = [("name", n); ("email", e); ("message", m)] /\
        JSON_stringify (formData w) = ContactForm.json_of n e m /\
        JsonText.read_form (ContactForm.json_of n e m) = Some (n, e, m) /\
        (JsonText.plain n && JsonText.plain e && JsonText.plain m = true ->
         ContactForm.json_of n e m =
         (let q := String (ascii_of_nat 34) EmptyString in
          "{" ++ q ++ "name" ++ q ++ ":" ++ q ++ n ++ q ++ ","
          ++ q ++ "email" ++ q ++ ":" ++ q ++ e ++ q ++ ","
          ++ q ++ "message" ++ q ++ ":" ++ q ++ m ++ q ++ "}")%string) /\
        status w' = VStr "submitting" /\
        log w' = log w ++
                 [ Did preventDefault;
                   Did (setStatus (VStr "submitting"));
                   Requested "YOUR_BACKEND_API_ENDPOINT/submit-form"
                     {| method := "POST";
                        headers := [("Content-Type", "application/json")];
                        body := ContactForm.json_of n e m |} ] /\
        length (requests (log w')) = S (length (requests (log w)))) /\
  (forall (w w' : world) (e : event),
      reachable CF w ->
      e <> Submit ->
      dispatch CF e w = Some w' ->
      requests (log w') = requests (log w)) /\
  (forall w w' : world,
      reachable CF2 w ->
      dispatch CF2 Submit w = Some w' ->
      exists n e m,
        formData w = [("name", n); ("email", e); ("message", m)] /\
        JSON_stringify (formData w) = ContactForm.json_of n e m /\
        JsonText.read_form (ContactForm.json_of n e m) = Some (n, e, m) /\
        (JsonText.plain n && JsonText.plain e && JsonText.plain m = true ->
         ContactForm.json_of n e m =
         (let q := String (ascii_of_nat 34) EmptyString in
          "{" ++ q ++ "name" ++ q ++ ":" ++ q ++ n ++ q ++ ","
          ++ q ++ "email" ++ q ++ ":" ++ q ++ e ++ q ++ ","
          ++ q ++ "message" ++ q ++ ":" ++ q ++ m ++ q ++ "}")%string) /\
        status w' = VStr "Sending..." /\
        log w' = log w ++
                 [ Did preventDefault;
                   Did (setStatus (VStr "Sending..."));
                   Requested "http://localhost:5000/contact"
                     {| method := "POST";
                        headers := [("Content-Type", "application/json")];
                        body := ContactForm.json_of n e m |} ] /\
        length (requests (log w')) = S (length (requests (log w)))) /\
  (forall (w w' : world) (e : event),
      reachable CF2 w ->
      e <> Submit ->
      dispatch CF2 e w = Some w' ->
      requests (log w') = requests (log w)).
Proof.
  split; [|split; [|split]].
  - intros w w' Hr Hd. apply Inv_reachable in Hr.
    destruct (submit_step _ _ Hr Hd) as (n & e & m & Hfd & _ & _ & _ & ->).
    exists n, e, m. cbn [status log].
    split; [exact Hfd|]. split; [now rewrite Hfd|].
    split; [apply read_form_json_of|]. split; [apply json_of_plain|].
    split; [reflexivity|]. split; [reflexivity|].
    rewrite requests_app, length_app. cbn. lia.
  - intros w w' e Hr Hne Hd. apply Inv_reachable in Hr.
    pose proof (step_requests _ _ _ Hr Hd) as H.
    destruct e; try exact H. now destruct Hne.
  - intros w w' Hr Hd. apply Inv2_reachable in Hr.
    destruct (submit_step2 _ _ Hr Hd) as (n & e & m & Hfd & _ & ->).
    exists n, e, m. cbn [status log].
    split; [exact Hfd|]. split; [now rewrite Hfd|].
    split; [apply read_form_json_of|]. split; [apply json_of_plain|].
    split; [reflexivity|]. split; [reflexivity|].
    rewrite requests_app, length_app. cbn. lia.
  - intros w w' e Hr Hne Hd. apply Inv2_reachable in Hr.
    pose proof (step_requests2 _ _ _ Hr Hd) as H.
    destruct e; try exact H. now destruct Hne.
Qed.

Lemma submit_posts_once_witness :
  (exists n e m,
      formData (Sample.after CF Sample.fill)
      = [("name", n); ("email", e); ("message", m)] /\
      JSON_stringify (formData (Sample.after CF Sample.fill))
      = ContactForm.json_of n e m /\
      JsonText.read_form (ContactForm.json_of n e m) = Some (n, e, m) /\
      (JsonText.plain n && JsonText.plain e && JsonText.plain m = true ->
       ContactForm.json_of n e m =
       (let q := String (ascii_of_nat 34) EmptyString in
        "{" ++ q ++ "name" ++ q ++ ":" ++ q ++ n ++ q ++ ","
        ++ q ++ "email" ++ q ++ ":" ++ q ++ e ++ q ++ ","
        ++ q ++ "message" ++ q ++ ":" ++ q ++ m ++ q ++ "}")%string) /\
      status (Sample.after CF (Sample.fill ++ [Submit]))
      = VStr "submitting" /\
      log (Sample.after CF (Sample.fill ++ [Submit]))
      = log (Sample.after CF Sample.fill) ++
        [ Did preventDefault;
          Did (setStatus (VStr "submitting"));
          Requested "YOUR_BACKEND_API_ENDPOINT/submit-form"
            {| method := "POST";
               headers := [("Content-Type", "application/json")];
               body := ContactForm.json_of n e m |} ] /\
      length (requests (log (Sample.after CF (Sample.fill ++ [Submit]))))
      = S (length (requests (log (Sample.after CF Sample.fill))))) /\
  requests (log (Sample.after CF
                   (Sample.fill ++ [Submit; FetchSettled 0
                                              (Fulfilled Sample.r200)])))
  = requests (log (Sample.after CF (Sample.fill ++ [Submit]))) /\
  (exists n e m,
      formData (Sample.after CF2 Sample.fill)
      = [("name", n); ("email", e); ("message", m)] /\
      JSON_stringify (formData (Sample.after CF2 Sample.fill))
      = ContactForm.json_of n e m /\
      JsonText.read_form (ContactForm.json_of n e m) = Some (n, e, m) /\
      (JsonText.plain n && JsonText.plain e && JsonText.plain m = true ->
       ContactForm.json_of n e m =
       (let q := String (ascii_of_nat 34) EmptyString in
        "{" ++ q ++ "name" ++ q ++ ":" ++ q ++ n ++ q ++ ","
        ++ q ++ "email" ++ q ++ ":" ++ q ++ e ++ q ++ ","
        ++ q ++ "message" ++ q ++ ":" ++ q ++ m ++ q ++ "}")%string) /\
      status (Sample.after CF2 (Sample.fill ++ [Submit]))
      = VStr "Sending..." /\
      log (Sample.after CF2 (Sample.fill ++ [Submit]))
      = log (Sample.after CF2 Sample.fill) ++
        [ Did preventDefault;
          Did (setStatus (VStr "Sending..."));
          Requested "http://localhost:5000/contact"
            {| method := "POST";
               headers := [("Content-Type", "application/json")];
               body := ContactForm.json_of n e m |} ] /\
      length (requests (log (Sample.after CF2 (Sample.fill ++ [Submit]))))
      = S (length (requests (log (Sample.after CF2 Sample.fill))))) /\
  requests (log (Sample.after CF2
                   (Sample.fill ++ [Submit; FetchSettled 0
                                              (Fulfilled Sample.r200)])))
  = requests (log (Sample.after CF2 (Sample.fill ++ [Submit]))).
Proof.
  destruct submit_posts_once as (H1 & H2 & H3 & H4).
  split; [|split; [|split]].
  - apply (H1 (Sample.after CF Sample.fill)
              (Sample.after CF (Sample.fill ++ [Submit]))).
    + exists Sample.fill. reflexivity.
    + reflexivity.
  - apply (H2 (Sample.after CF (Sample.fill ++ [Submit]))
              (Sample.after CF
                 (Sample.fill ++ [Submit; FetchSettled 0
                                            (Fulfilled Sample.r200)]))
              (FetchSettled 0 (Fulfilled Sample.r200))).
    + exists (Sample.fill ++ [Submit]). reflexivity.
    + discriminate.
    + reflexivity.
  - apply (H3 (Sample.after CF2 Sample.fill)
              (Sample.after CF2 (Sample.fill ++ [Submit]))).
    + exists Sample.fill. reflexivity.
    + reflexivity.
  - apply (H4 (Sample.after CF2 (Sample.fill ++ [Submit]))
              (Sample.after CF2
                 (Sample.fill ++ [Submit; FetchSettled 0
                                            (Fulfilled Sample.r200)]))
              (FetchSettled 0 (Fulfilled Sample.r200))).
    + exists (Sample.fill ++ [Submit]). reflexivity.
    + discriminate.
    + reflexivity.
Defined.

(** ** One whole submission *)

Lemma status_sets_app (v : value) (l1 l2 : list effect) :
  status_sets v (l1 ++ l2) = status_sets v l1 + status_sets v l2.
Proof. unfold status_sets. now rewrite filter_app, length_app. Qed.

Lemma submission_run (w : world) (n e m : string) (r : Response) :
  ContactForm.Inv w ->
  status w <> ContactForm.submitting ->
  filled n e m = true ->
  ok r = true ->
  exists w',
    run CF (submission n e m r) w = Some w' /\
    ContactForm.Inv w' /\
    state_of w' = (ContactForm.emptyForm, ContactForm.success, []) /\
    requests (log w') = requests (log w) ++ [ContactForm.request n e m] /\
    status_sets ContactForm.success (log w')
    = S (status_sets ContactForm.success (log w)).
Proof.
  intros HI Hs Hf Hok.
  assert (exists w', run CF (submission n e m r) w = Some w') as [w' Hrun].
  { destruct HI as [(a & b & c & Hfd) [[Hp Hst] | [Hsub _]]];
      [|now destruct Hs].
    unfold submission. cbn [run].
    rewrite dispatch_change by reflexivity.
    rewrite dispatch_change by reflexivity.
    rewrite dispatch_change by reflexivity.
    rewrite (dispatch_submit _ n e m);
      [| cbn; rewrite Hfd; reflexivity | exact Hf | exact Hs].
    rewrite dispatch_fetch by (cbn; rewrite Hp; reflexivity).
    eexists. reflexivity. }
  exists w'. split; [exact Hrun|].
  unfold submission in Hrun. cbn [run] in Hrun.
  destruct (dispatch CF (Change "name" n) w) as [w1|] eqn:H1; [|discriminate].
  destruct (dispatch CF (Change "email" e) w1) as [w2|] eqn:H2;
    [|discriminate].
  destruct (dispatch CF (Change "message" m) w2) as [w3|] eqn:H3;
    [|discriminate].
  destruct (dispatch CF Submit w3) as [w4|] eqn:H4; [|discriminate].
  destruct (dispatch CF (FetchSettled 0 (Fulfilled r)) w4) as [w5|] eqn:H5;
    [|discriminate].
  injection Hrun as <-.
  pose proof (Inv_step _ _ _ HI H1) as I1.
  pose proof (Inv_step _ _ _ I1 H2) as I2.
  pose proof (Inv_step _ _ _ I2 H3) as I3.
  pose proof (Inv_step _ _ _ I3 H4) as I4.
  pose proof (Inv_step _ _ _ I4 H5) as I5.
  split; [exact I5|].
  pose proof (step_requests _ _ _ HI H1) as R1.
  pose proof (step_requests _ _ _ I1 H2) as R2.
  pose proof (step_requests _ _ _ I2 H3) as R3.
  pose proof (step_requests _ _ _ I3 H4) as R4.
  pose proof (step_requests _ _ _ I4 H5) as R5.
  pose proof (step_log _ _ _ HI H1) as L1.
  pose proof (step_log _ _ _ I1 H2) as L2.
  pose proof (step_log _ _ _ I2 H3) as L3.
  pose proof (step_log _ _ _ I3 H4) as L4.
  pose proof (step_log _ _ _ I4 H5) as L5.
  cbn beta iota in R1, R2, R3, R4, R5, L1, L2, L3, L4, L5.
  rewrite Hok in L5.
  destruct R4 as (n' & e' & m' & Hfd3 & R4).
  destruct L4 as (n'' & e'' & m'' & _ & L4).
  assert (Hfd : formData w3 = ContactForm.form n e m).
  { apply change_step in H1 as [_ ->], H2 as [_ ->], H3 as [_ ->].
    destruct HI as [(a & b & c & ->) _]. reflexivity. }
  rewrite Hfd in Hfd3. injection Hfd3 as <- <- <-.
  destruct (fetch_step _ _ _ _ I4 H5) as (_ & _ & Hp4 & E5).
  rewrite at_fetch_ok_exec in E5 by exact Hok.
  split; [|split].
  - rewrite E5. unfold state_of. cbn. now rewrite Hp4.
  - now rewrite R5, R4, R3, R2, R1.
  - rewrite L5, L4, L3, L2, L1. rewrite !status_sets_app. cbn. lia.
Qed.

(** C8: from any reachable state of the first form in which no request is
    outstanding, typing three non-empty values, submitting and receiving a
    success response, twice in sequence with the same values, is possible;
    each round sends the same request and sets the status to ['success']
    once, and the state of the component after the second round (fields,
    status, pending continuations) is the state after the first: the three
    fields empty, the status ['success'], nothing pending. *)
Theorem two_successes_same_state :
  forall (w0 : world) (n e m : string) (r1 r2 : Response),
    reachable CF w0 ->
    status w0 <> VStr "submitting" ->
    filled n e m = true ->
    ok r1 = true -> ok r2 = true ->
    exists w1 w2,
      run CF (submission n e m r1) w0 = Some w1 /\
      run CF (submission n e m r2) w1 = Some w2 /\
      state_of w1 =
        ([("name", EmptyString); ("email", EmptyString);
          ("message", EmptyString)], VStr "success", []) /\
      state_of w2 = state_of w1 /\
      requests (log w1) = requests (log w0) ++ [ContactForm.request n e m] /\
      requests (log w2) = requests (log w1) ++ [ContactForm.request n e m] /\
      status_sets (VStr "success") (log w1)
      = S (status_sets (VStr "success") (log w0)) /\
      status_sets (VStr "success") (log w2)
      = S (status_sets (VStr "success") (log w1)).
Proof.
  intros w0 n e m r1 r2 Hr Hs Hf Hok1 Hok2.
  apply Inv_reachable in Hr.
  destruct (submission_run w0 n e m r1 Hr Hs Hf Hok1)
    as (w1 & Hrun1 & I1 & S1 & R1 & C1).
  assert (Hs1 : status w1 <> ContactForm.submitting).
  { unfold state_of in S1. injection S1 as _ -> _. discriminate. }
  destruct (submission_run w1 n e m r2 I1 Hs1 Hf Hok2)
    as (w2 & Hrun2 & _ & S2 & R2 & C2).
  exists w1, w2. repeat split; try assumption.
  now rewrite S2, S1.
Qed.

Lemma two_successes_same_state_witness :
  exists w1 w2,
    run CF (submission "Ada" "ada@example.org" "Hello" Sample.r200)
        (initial CF) = Some w1 /\
    run CF (submission "Ada" "ada@example.org" "Hello" Sample.r200) w1
    = Some w2 /\
    state_of w1 =
      ([("name", EmptyString); ("email", EmptyString);
        ("message", EmptyString)], VStr "success", []) /\
    state_of w2 = state_of w1 /\
    requests (log w1) =
      requests (log (initial CF))
      ++ [ContactForm.request "Ada" "ada@example.org" "Hello"] /\
    requests (log w2) =
      requests (log w1)
      ++ [ContactForm.request "Ada" "ada@example.org" "Hello"] /\
    status_sets (VStr "success") (log w1)
    = S (status_sets (VStr "success") (log (initial CF))) /\
    status_sets (VStr "success") (log w2)
    = S (status_sets (VStr "success") (log w1)).
Proof.
  apply (two_successes_same_state
           (initial CF) "Ada" "ada@example.org" "Hello"
           Sample.r200 Sample.r200).
  - exists []. reflexivity.
  - discriminate.
  - reflexivity.
  - reflexivity.
  - reflexivity.
Defined.

(** C7: the landing page has no props, no state and no branch, so its one
    render is [Landing.App]. In that tree each of the six fixed strings is
    the content of exactly one text node and occurs exactly once in the
    text of the page, and each of the two imported images is the [src] of
    exactly one [<img>] element, the only two of the tree. *)
Theorem landing_fixed_content_once :
  Landing.fixed_texts =
    [ "Stay in"; "school"; "peeps";
      "And yes. We can help make that a reality.";
      "Join the program"; "Apply now" ] /\
  Forall (fun s => count_text s Landing.App = 1) Landing.fixed_texts /\
  Forall (fun s => occurrences s (text_content Landing.App) = 1)
         Landing.fixed_texts /\
  Landing.image_references = [Landing.logo; Landing.heroImage] /\
  Forall (fun i => count_img i Landing.App = 1) Landing.image_references /\
  length (filter (has_tag "img") (nodes Landing.App)) = 2.
Proof.
  repeat split; repeat constructor.
Qed.

(** ** Every transition of the first form happens *)

Lemma value_eqb_eq (a b : value) : value_eqb a b = true -> a = b.
Proof.
  destruct a as [|s], b as [|t]; simpl; try discriminate; auto.
  intros H. apply String.eqb_eq in H. now subst.
Qed.

Lemma transitions_happen (a b : value) :
  ContactForm.transition a b = true ->
  exists (w : world) (e : event) (w' : world),
    reachable CF w /\ dispatch CF e w = Some w' /\
    status w = a /\ status w' = b.
Proof.
  unfold ContactForm.transition, ContactForm.spec_transition.
  intros H.
  repeat match type of H with
         | (_ || _)%bool = true => apply orb_prop in H as [H | H]
         | (_ && _)%bool = true => apply andb_prop in H as [?H H]
         end;
    repeat match goal with
           | E : value_eqb _ _ = true |- _ => apply value_eqb_eq in E; subst
           end.
  - exists (Sample.after CF Sample.fill), Submit.
    eexists. split; [exists Sample.fill; reflexivity|].
    split; [reflexivity|]. split; reflexivity.
  - exists (Sample.after CF (Sample.fill ++ [Submit])),
      (FetchSettled 0 (Fulfilled Sample.r200)).
    eexists. split; [exists (Sample.fill ++ [Submit]); reflexivity|].
    split; [reflexivity|]. split; reflexivity.
  - exists (Sample.after CF (Sample.fill ++ [Submit])),
      (FetchSettled 0 (Rejected Sample.network_error)).
    eexists. split; [exists (Sample.fill ++ [Submit]); reflexivity|].
    split; [reflexivity|]. split; reflexivity.
  - exists (Sample.after CF
              (Sample.fill
               ++ [Submit; FetchSettled 0 (Rejected Sample.network_error)])),
      Submit.
    eexists.
    split; [exists (Sample.fill
                    ++ [Submit;
                        FetchSettled 0 (Rejected Sample.network_error)]);
            reflexivity|].
    split; [reflexivity|]. split; reflexivity.
  - exists (Sample.after CF
              (Sample.fill
               ++ [Submit; FetchSettled 0 (Fulfilled Sample.r200)]
               ++ Sample.fill)),
      Submit.
    eexists.
    split; [exists (Sample.fill
                    ++ [Submit; FetchSettled 0 (Fulfilled Sample.r200)]
                    ++ Sample.fill);
            reflexivity|].
    split; [reflexivity|]. split; reflexivity.
Qed.

(** * Further properties of the two forms *)

Import Fields.

(** ** Induction over the reachable states *)

Lemma run_app (C : component) (es1 es2 : list event) (w : world) :
  run C (es1 ++ es2) w =
  match run C es1 w with
  | Some w1 => run C es2 w1
  | None => None
  end.
Proof.
  revert w. induction es1 as [|e es1 IH]; intros w; simpl; [reflexivity|].
  destruct (dispatch C e w); [apply IH | reflexivity].
Qed.

Lemma reachable_initial (C : component) : reachable C (initial C).
Proof. exists []. reflexivity. Qed.

Lemma reachable_step (C : component) (e : event) (w w' : world) :
  reachable C w -> dispatch C e w = Some w' -> reachable C w'.
Proof.
  intros [es H] Hd. exists (es ++ [e]).
  rewrite run_app, H. simpl. now rewrite Hd.
Qed.

Lemma reachable_induction (C : component) (P : world -> Prop) :
  P (initial C) ->
  (forall e w w',
      reachable C w -> P w -> dispatch C e w = Some w' -> P w') ->
  forall w, reachable C w -> P w.
Proof.
  intros H0 Hstep w [es Hrun]. revert w Hrun.
  induction es as [|e es IH] using rev_ind; intros w Hrun.
  - simpl in Hrun. injection Hrun as <-. exact H0.
  - rewrite run_app in Hrun.
    destruct (run C es (initial C)) as [w0|] eqn:E; [|discriminate].
    simpl in Hrun.
    destruct (dispatch C e w0) as [w1|] eqn:Hd; [|discriminate].
    injection Hrun as <-.
    apply (Hstep e w0 w1); auto. exists es. exact E.
Qed.

(** ** Both forms at once *)

Lemma form_change (C : component) (w : world) (name value : string) :
  In C [CF; CF2] ->
  dispatch C (Change name value) w =
  if is_field name
  then Some {| formData := obj_set name value (formData w);
               status := status w; pending := pending w;
               log := log w ++
                      [Did (setFormData
                              (obj_set name value (formData w)))] |}
  else None.
Proof.
  intros [<- | [<- | []]]; unfold dispatch, view.
  - cbn [render CF handleChange]. now rewrite change_target_render.
  - cbn [render CF2 handleChange]. now rewrite change_target_render2.
Qed.

Lemma form_fields (C : component) (w : world) :
  In C [CF; CF2] -> reachable C w ->
  exists n e m, formData w = ContactForm.form n e m.
Proof.
  intros [<- | [<- | []]] Hr.
  - now apply Inv_reachable in Hr as [H _].
  - now apply Inv2_reachable in Hr as [H _].
Qed.

Lemma field_present (k n e m : string) :
  is_field k = true -> obj_get k (ContactForm.form n e m) <> None.
Proof.
  intros H. apply is_field_In in H. simpl in H.
  destruct H as [<- | [<- | [<- | []]]]; discriminate.
Qed.

(** ** Laws of the object update of [handleChange] *)

Lemma obj_set_twice (k v1 v2 : string) (o : obj) :
  obj_set k v2 (obj_set k v1 o) = obj_set k v2 o.
Proof.
  induction o as [|[k' v'] o IH]; simpl.
  - now rewrite String.eqb_refl.
  - destruct (String.eqb k' k) eqn:E; simpl; rewrite E; [reflexivity|].
    now rewrite IH.
Qed.

Lemma obj_set_absent (k v : string) (o : obj) :
  obj_get k o = None -> obj_set k v o = o ++ [(k, v)].
Proof.
  induction o as [|[k' v'] o IH]; simpl; [reflexivity|].
  destruct (String.eqb k' k); [discriminate|].
  intros H. now rewrite IH.
Qed.

Lemma keys_obj_set_present (k v : string) (o : obj) :
  obj_get k o <> None -> keys (obj_set k v o) = keys o.
Proof.
  unfold keys. induction o as [|[k' v'] o IH]; simpl; [congruence|].
  destruct (String.eqb k' k); simpl; intros H; [reflexivity|].
  now rewrite IH.
Qed.

Lemma obj_get_set_present (k k0 v : string) (o : obj) :
  obj_get k0 o <> None -> obj_get k0 (obj_set k v o) <> None.
Proof.
  intros H. destruct (String.eqb_spec k0 k) as [->|Hne].
  - rewrite obj_get_set_same. discriminate.
  - now rewrite obj_get_set_other.
Qed.

Lemma obj_set_comm (k1 v1 k2 v2 : string) (o : obj) :
  k1 <> k2 ->
  obj_get k1 o <> None \/ obj_get k2 o <> None ->
  obj_set k1 v1 (obj_set k2 v2 o) = obj_set k2 v2 (obj_set k1 v1 o).
Proof.
  intros Hne. induction o as [|[k' v'] o IH]; simpl.
  - intros [H | H]; congruence.
  - intros H.
    destruct (String.eqb_spec k' k1) as [E1 | N1];
      destruct (String.eqb_spec k' k2) as [E2 | N2]; simpl.
    + congruence.
    + subst k'. rewrite String.eqb_refl.
      destruct (String.eqb_spec k1 k2); [congruence | reflexivity].
    + subst k'. rewrite String.eqb_refl.
      destruct (String.eqb_spec k2 k1); [congruence | reflexivity].
    + destruct (String.eqb_spec k' k1); [congruence|].
      destruct (String.eqb_spec k' k2); [congruence|].
      now rewrite IH.
Qed.

(** ** Edits *)

(** X1: in a reachable state of either form, two edits of two different
    controls can be made in either order, and both orders leave the same
    fields, status and pending continuations, hence the same request
    body. *)
Theorem edits_of_two_fields_commute :
  forall (C : component) (w wa wab : world) (k1 v1 k2 v2 : string),
    In C [CF; CF2] ->
    reachable C w ->
    k1 <> k2 ->
    dispatch C (Change k1 v1) w = Some wa ->
    dispatch C (Change k2 v2) wa = Some wab ->
    exists wb wba,
      dispatch C (Change k2 v2) w = Some wb /\
      dispatch C (Change k1 v1) wb = Some wba /\
      state_of wba = state_of wab /\
      JSON_stringify (formData wba) = JSON_stringify (formData wab).
Proof.
  intros C w wa wab k1 v1 k2 v2 HC Hr Hne H1 H2.
  destruct (form_fields C w HC Hr) as (n & e & m & Hfd).
  rewrite (form_change C _ _ _ HC) in H1.
  destruct (is_field k1) eqn:F1; [|discriminate].
  injection H1 as <-.
  rewrite (form_change C _ _ _ HC) in H2.
  destruct (is_field k2) eqn:F2; [|discriminate].
  injection H2 as <-.
  do 2 eexists. rewrite (form_change C _ _ _ HC), F2.
  split; [reflexivity|].
  rewrite (form_change C _ _ _ HC), F1. split; [reflexivity|].
  assert (E : obj_set k1 v1 (obj_set k2 v2 (formData w))
              = obj_set k2 v2 (obj_set k1 v1 (formData w))).
  { apply obj_set_comm; [exact Hne|]. left. rewrite Hfd.
    now apply field_present. }
  unfold state_of. cbn. now rewrite E.
Qed.

Lemma edits_of_two_fields_commute_witness :
  exists wb wba,
    dispatch CF (Change "message" "Hi") (initial CF) = Some wb /\
    dispatch CF (Change "name" "Ada") wb = Some wba /\
    state_of wba
    = state_of (Sample.after CF [Change "name" "Ada"; Change "message" "Hi"])
    /\
    JSON_stringify (formData wba)
    = JSON_stringify
        (formData
           (Sample.after CF [Change "name" "Ada"; Change "message" "Hi"])).
Proof.
  apply (edits_of_two_fields_commute
           CF (initial CF) (Sample.after CF [Change "name" "Ada"])
           (Sample.after CF [Change "name" "Ada"; Change "message" "Hi"])
           "name" "Ada" "message" "Hi").
  - left. reflexivity.
  - exists []. reflexivity.
  - discriminate.
  - reflexivity.
  - reflexivity.
Defined.

(** X2: in either form, two edits of the same control in a row leave what
    the second alone would leave: the last value typed wins. *)
Theorem last_edit_wins :
  forall (C : component) (w wa wb : world) (k v1 v2 : string),
    In C [CF; CF2] ->
    dispatch C (Change k v1) w = Some wa ->
    dispatch C (Change k v2) wa = Some wb ->
    exists w',
      dispatch C (Change k v2) w = Some w' /\
      state_of w' = state_of wb /\
      obj_get k (formData wb) = Some v2.
Proof.
  intros C w wa wb k v1 v2 HC H1 H2.
  rewrite (form_change C _ _ _ HC) in H1.
  destruct (is_field k) eqn:F; [|discriminate].
  injection H1 as <-.
  rewrite (form_change C _ _ _ HC), F in H2.
  injection H2 as <-.
  eexists. rewrite (form_change C _ _ _ HC), F. split; [reflexivity|].
  unfold state_of. cbn. rewrite obj_set_twice. split; [reflexivity|].
  apply obj_get_set_same.
Qed.

Lemma last_edit_wins_witness :
  exists w',
    dispatch CF2 (Change "email" "ada@lovelace.uk") (initial CF2) = Some w' /\
    state_of w'
    = state_of (Sample.after CF2 [Change "email" "ada@";
                                  Change "email" "ada@lovelace.uk"]) /\
    obj_get "email"
      (formData (Sample.after CF2 [Change "email" "ada@";
                                   Change "email" "ada@lovelace.uk"]))
    = Some "ada@lovelace.uk".
Proof.
  apply (last_edit_wins
           CF2 (initial CF2) (Sample.after CF2 [Change "email" "ada@"])
           (Sample.after CF2 [Change "email" "ada@";
                              Change "email" "ada@lovelace.uk"])
           "email" "ada@" "ada@lovelace.uk").
  - right. left. reflexivity.
  - reflexivity.
  - reflexivity.
Defined.

(** X3: [handleChange] of either form takes any name. On an object none
    of whose keys is written with digits only: a name that [formData] has
    keeps the keys and their order; a name that it lacks and that is not
    written with digits only is not refused: it becomes a new last
    property, so the object grows by one and, for two such names, the order
    of the keys is the order of the edits. *)
Theorem handleChange_unknown_name :
  forall (h : obj -> string -> string -> prog) (fd : obj)
         (name value : string) (w : world),
    In h [ContactForm.handleChange; ContactForm2.handleChange] ->
    named_keys fd = true ->
    (obj_get name fd <> None ->
     keys (formData (exec (h fd name value) w)) = keys fd) /\
    (obj_get name fd = None ->
     numeric name = false ->
     formData (exec (h fd name value) w) = fd ++ [(name, value)] /\
     named_keys (formData (exec (h fd name value) w)) = true /\
     forall name' value',
       name' <> name -> obj_get name' fd = None ->
       numeric name' = false ->
       formData (exec (h (formData (exec (h fd name value) w)) name' value')
                      w)
       = fd ++ [(name, value); (name', value')]).
Proof.
  intros h fd name value w Hh Hk.
  assert (E : forall fd' n v, formData (exec (h fd' n v) w) = obj_set n v fd')
    by (destruct Hh as [<- | [<- | []]]; reflexivity).
  rewrite E. split.
  - apply keys_obj_set_present.
  - intros Habs Hnum. rewrite (obj_set_absent _ _ _ Habs).
    split; [reflexivity|]. split.
    + unfold named_keys, keys in *. rewrite map_app, forallb_app, Hk.
      cbn. now rewrite Hnum.
    + intros name' value' Hne Habs' _. rewrite E.
      rewrite obj_set_absent.
      * now rewrite <- app_assoc.
      * clear E Hk. induction fd as [|[k v] fd IH]; simpl in *.
        -- destruct (String.eqb_spec name name'); [congruence | reflexivity].
        -- destruct (String.eqb k name'); [discriminate|].
           destruct (String.eqb k name); [discriminate|]. now apply IH.
Qed.

Lemma handleChange_unknown_name_witness :
  named_keys ContactForm.emptyForm = true /\
  (obj_get "email" ContactForm.emptyForm <> None ->
   keys (formData (exec (ContactForm.handleChange ContactForm.emptyForm
                           "email" "ada@example.org") (initial CF)))
   = keys ContactForm.emptyForm) /\
  (obj_get "phone" ContactForm.emptyForm = None ->
   numeric "phone" = false ->
   formData (exec (ContactForm.handleChange ContactForm.emptyForm
                     "phone" "555") (initial CF))
   = ContactForm.emptyForm ++ [("phone", "555")]).
Proof.
  split; [reflexivity|]. split.
  - apply (proj1 (handleChange_unknown_name
                    ContactForm.handleChange ContactForm.emptyForm
                    "email" "ada@example.org" (initial CF)
                    (or_introl eq_refl) eq_refl)).
  - intros H N.
    apply (proj2 (handleChange_unknown_name
                    ContactForm.handleChange ContactForm.emptyForm
                    "phone" "555" (initial CF) (or_introl eq_refl) eq_refl)).
    + exact H.
    + exact N.
Defined.

(** ** What the controls show *)

Lemma control_value_render (fd : obj) (st : value) (k : string) :
  control_value k (ContactForm.render fd st) =
  if is_field k then Some (ContactForm.prop (obj_get k fd)) else None.
Proof.
  unfold control_value, ContactForm.render, ContactForm.when, is_field.
  destruct (value_eqb st (VStr "success")), (value_eqb st (VStr "error"));
    cbn;
    destruct (String.eqb_spec "name" k) as [<-|];
    [reflexivity| |reflexivity| |reflexivity| |reflexivity|];
    destruct (String.eqb_spec "email" k) as [<-|];
    [reflexivity| |reflexivity| |reflexivity| |reflexivity|];
    destruct (String.eqb_spec "message" k) as [<-|]; reflexivity.
Qed.

Lemma control_value_render2 (fd : obj) (st : value) (k : string) :
  control_value k (ContactForm2.render fd st) =
  if is_field k then Some (ContactForm.prop (obj_get k fd)) else None.
Proof.
  unfold control_value, ContactForm2.render, ContactForm2.status_line,
    is_field.
  destruct st as [|s]; destruct (truthy _);
    cbn;
    destruct (String.eqb_spec "name" k) as [<-|];
    [reflexivity| |reflexivity| |reflexivity| |reflexivity|];
    destruct (String.eqb_spec "email" k) as [<-|];
    [reflexivity| |reflexivity| |reflexivity| |reflexivity|];
    destruct (String.eqb_spec "message" k) as [<-|]; reflexivity.
Qed.

Lemma form_control_value (C : component) (w : world) (k : string) :
  In C [CF; CF2] ->
  control_value k (view C w) =
  if is_field k then Some (ContactForm.prop (obj_get k (formData w)))
  else None.
Proof.
  intros [<- | [<- | []]]; unfold view.
  - cbn [render CF]. apply control_value_render.
  - cbn [render CF2]. apply control_value_render2.
Qed.

(** X4: in every reachable state of either form each of the three controls
    shows the field of [formData] of its own name, which is always there;
    after an edit the edited control shows the value typed and the other
    controls show what they showed. *)
Theorem controls_show_fields :
  forall (C : component) (w : world) (k : string),
    In C [CF; CF2] ->
    reachable C w ->
    is_field k = true ->
    (exists v, obj_get k (formData w) = Some v /\
               control_value k (view C w) = Some (AStr v)) /\
    (forall (v : string) (w' : world),
        dispatch C (Change k v) w = Some w' ->
        control_value k (view C w') = Some (AStr v) /\
        forall k', k' <> k ->
                   control_value k' (view C w') = control_value k' (view C w)).
Proof.
  intros C w k HC Hr Hk. split.
  - destruct (form_fields C w HC Hr) as (n & e & m & Hfd).
    rewrite (form_control_value C w k HC), Hk, Hfd.
    destruct (obj_get k (ContactForm.form n e m)) as [v|] eqn:E.
    + exists v. split; reflexivity.
    + now destruct (field_present k n e m Hk).
  - intros v w' Hd. rewrite (form_change C _ _ _ HC), Hk in Hd.
    injection Hd as <-. split.
    + rewrite (form_control_value C _ k HC), Hk. cbn [formData].
      now rewrite obj_get_set_same.
    + intros k' Hne. rewrite !(form_control_value C _ k' HC). cbn [formData].
      now rewrite obj_get_set_other.
Qed.

Lemma controls_show_fields_witness :
  (exists v, obj_get "message" (formData (Sample.after CF Sample.fill))
             = Some v /\
             control_value "message" (view CF (Sample.after CF Sample.fill))
             = Some (AStr v)) /\
  (forall (v : string) (w' : world),
      dispatch CF (Change "message" v) (Sample.after CF Sample.fill)
      = Some w' ->
      control_value "message" (view CF w') = Some (AStr v) /\
      forall k', k' <> "message" ->
                 control_value k' (view CF w')
                 = control_value k' (view CF (Sample.after CF Sample.fill))).
Proof.
  apply (controls_show_fields CF (Sample.after CF Sample.fill) "message").
  - left. reflexivity.
  - exists Sample.fill. reflexivity.
  - reflexivity.
Defined.

(** ** The ledger of the effects *)

Lemma uncaught_app (l1 l2 : list effect) :
  uncaught (l1 ++ l2) = uncaught l1 ++ uncaught l2.
Proof. unfold uncaught. apply flat_map_app. Qed.

Lemma console_errors_app (l1 l2 : list effect) :
  console_errors (l1 ++ l2) = console_errors l1 + console_errors l2.
Proof. unfold console_errors. now rewrite filter_app, length_app. Qed.

Ltac ledger :=
  cbn [log pending formData status forget remove_nth];
  rewrite ?requests_app, ?status_sets_app, ?console_errors_app,
    ?uncaught_app, ?length_app;
  cbn.

Lemma Ledger_reachable (w : world) : reachable CF w -> Ledger w.
Proof.
  apply reachable_induction.
  - repeat split; intros; reflexivity.
  - intros e w0 w' Hr (U & A1 & A2 & A3 & K) Hd.
    apply Inv_reachable in Hr.
    destruct e as [name value | | i o | i o].
    + apply change_step in Hd as [_ ->]. unfold Ledger. ledger.
      rewrite !app_nil_r, !Nat.add_0_r. auto.
    + destruct (submit_step _ _ Hr Hd) as (n & e & m & _ & _ & Hp & _ & ->).
      rewrite Hp in A2. unfold Ledger. ledger.
      rewrite U. repeat split; try (cbn in *; lia).
      * discriminate.
      * intros H. now destruct (requests (log w0)).
    + destruct (fetch_step _ _ _ _ Hr Hd) as (_ & Hs & Hp & ->).
      rewrite Hp in A2.
      assert (K' : requests (log w0) <> [])
        by (intros H; apply K in H; rewrite Hs in H; discriminate).
      destruct o as [r | thrown]; [destruct (ok r) eqn:Hok|].
      * rewrite at_fetch_ok_exec by exact Hok. unfold Ledger. ledger.
        rewrite Hp, U, !app_nil_r. cbn in *.
        repeat split; try lia; try discriminate. intros H. now destruct K'.
      * rewrite at_fetch_not_ok_exec by exact Hok. unfold Ledger. ledger.
        rewrite Hp, U, !app_nil_r. cbn in *.
        repeat split; try lia.
        -- rewrite Hs. discriminate.
        -- intros H. now destruct K'.
      * rewrite at_fetch_rejected_exec. unfold Ledger. ledger.
        rewrite Hp, U, !app_nil_r. cbn in *.
        repeat split; try lia; try discriminate. intros H. now destruct K'.
    + destruct (json_step _ _ _ _ Hr Hd) as (_ & Hs & Hp & ->).
      rewrite Hp in A2.
      assert (K' : requests (log w0) <> [])
        by (intros H; apply K in H; rewrite Hs in H; discriminate).
      destruct o as [j | thrown].
      * rewrite at_json_fulfilled_exec. unfold Ledger. ledger.
        rewrite Hp, U, !app_nil_r. cbn in *.
        repeat split; try lia; try discriminate. intros H. now destruct K'.
      * rewrite at_json_rejected_exec. unfold Ledger. ledger.
        rewrite Hp, U, !app_nil_r. cbn in *.
        repeat split; try lia; try discriminate. intros H. now destruct K'.
Qed.

Lemma Ledger2_reachable (w : world) : reachable CF2 w -> Ledger2 w.
Proof.
  apply reachable_induction.
  - repeat split; intros; reflexivity.
  - intros e w0 w' Hr (U & A1 & A2 & A3 & K) Hd.
    apply Inv2_reachable in Hr.
    destruct e as [name value | | i o | i o].
    + apply change_step2 in Hd as [_ ->]. unfold Ledger2. ledger.
      rewrite !app_nil_r, !Nat.add_0_r. auto.
    + destruct (submit_step2 _ _ Hr Hd) as (n & e & m & _ & _ & ->).
      unfold Ledger2. ledger.
      rewrite U. repeat split; try (cbn in *; lia).
      * discriminate.
      * intros H. now destruct (requests (log w0)).
    + destruct (fetch_step2 _ _ _ _ Hr Hd) as (Hi & ->).
      apply length_remove_nth in Hi.
      assert (K' : requests (log w0) <> []).
      { intros H. rewrite H in A2. cbn in A2. lia. }
      assert (N : forall s : string,
                 s <> EmptyString ->
                 (VStr s = VStr EmptyString <-> requests (log w0) = [])).
      { intros s Hs. split; [congruence | intros H; now destruct K']. }
      destruct o as [r | thrown]; [destruct (ok r) eqn:Hok|].
      * rewrite at_fetch2_ok_exec by exact Hok. unfold Ledger2. ledger.
        rewrite U, !app_nil_r.
        repeat split; try (cbn in *; lia); apply N; discriminate.
      * rewrite at_fetch2_not_ok_exec by exact Hok. unfold Ledger2. ledger.
        rewrite U, !app_nil_r.
        repeat split; try (cbn in *; lia); apply N; discriminate.
      * rewrite at_fetch2_rejected_exec. unfold Ledger2. ledger.
        rewrite U, !app_nil_r.
        repeat split; try (cbn in *; lia); apply N; discriminate.
    + destruct (json_step2 _ _ _ _ Hr Hd).
Qed.

(** X5: no error escapes [handleSubmit]: in every reachable state of either
    form, whatever [fetch] and [response.json()] have rejected with, no
    uncaught error has been raised; the [catch] took each of them. *)
Theorem no_error_escapes :
  forall (C : component) (w : world),
    In C [CF; CF2] -> reachable C w -> uncaught (log w) = [].
Proof.
  intros C w [<- | [<- | []]] Hr.
  - now apply Ledger_reachable in Hr as (U & _).
  - now apply Ledger2_reachable in Hr as (U & _).
Qed.

Lemma no_error_escapes_witness :
  uncaught
    (log (Sample.after CF
            (Sample.fill
             ++ [Submit; FetchSettled 0 (Fulfilled Sample.r500);
                 JsonSettled 0 (Rejected Sample.syntax_error)]))) = [] /\
  console_errors
    (log (Sample.after CF
            (Sample.fill
             ++ [Submit; FetchSettled 0 (Fulfilled Sample.r500);
                 JsonSettled 0 (Rejected Sample.syntax_error)]))) = 1.
Proof.
  split; [|reflexivity].
  apply (no_error_escapes
           CF
           (Sample.after CF
              (Sample.fill
               ++ [Submit; FetchSettled 0 (Fulfilled Sample.r500);
                   JsonSettled 0 (Rejected Sample.syntax_error)]))).
  - left. reflexivity.
  - exists (Sample.fill
            ++ [Submit; FetchSettled 0 (Fulfilled Sample.r500);
                JsonSettled 0 (Rejected Sample.syntax_error)]).
    reflexivity.
Defined.

(** X6: in every reachable state of the first form, the requests sent so
    far are as many as the times the status was set to ['submitting'], and
    each of them is either still pending or has had exactly one outcome, a
    setting of ['success'] or of ['error']; [console.error] has been called
    once for each setting of ['error'] and never otherwise. The same holds
    of the second form with ['Sending...'], its three outcome strings, and
    [console.error] called once for each ['An error occurred.']. *)
Theorem requests_accounted :
  (forall w : world,
      reachable CF w ->
      length (requests (log w)) = status_sets (VStr "submitting") (log w) /\
      length (requests (log w)) =
        length (pending w) + status_sets (VStr "success") (log w)
        + status_sets (VStr "error") (log w) /\
      console_errors (log w) = status_sets (VStr "error") (log w)) /\
  (forall w : world,
      reachable CF2 w ->
      length (requests (log w)) = status_sets (VStr "Sending...") (log w) /\
      length (requests (log w)) =
        length (pending w)
        + status_sets (VStr "Message sent successfully!") (log w)
        + status_sets (VStr "Failed to send message.") (log w)
        + status_sets (VStr "An error occurred.") (log w) /\
      console_errors (log w)
      = status_sets (VStr "An error occurred.") (log w)).
Proof.
  split; intros w Hr.
  - apply Ledger_reachable in Hr as (_ & A1 & A2 & A3 & _). auto.
  - apply Ledger2_reachable in Hr as (_ & A1 & A2 & A3 & _). auto.
Qed.

Lemma requests_accounted_witness :
  (length (requests (log (Sample.after CF (Sample.fill ++ [Submit])))) = 1 /\
   length (pending (Sample.after CF (Sample.fill ++ [Submit]))) = 1) /\
  (length (requests (log (Sample.after CF (Sample.fill ++ [Submit]))))
   = status_sets (VStr "submitting")
                 (log (Sample.after CF (Sample.fill ++ [Submit]))) /\
   length (requests (log (Sample.after CF (Sample.fill ++ [Submit]))))
   = length (pending (Sample.after CF (Sample.fill ++ [Submit])))
     + status_sets (VStr "success")
                   (log (Sample.after CF (Sample.fill ++ [Submit])))
     + status_sets (VStr "error")
                   (log (Sample.after CF (Sample.fill ++ [Submit]))) /\
   console_errors (log (Sample.after CF (Sample.fill ++ [Submit])))
   = status_sets (VStr "error")
                 (log (Sample.after CF (Sample.fill ++ [Submit])))) /\
  (length (requests
             (log (Sample.after CF2 (Sample.fill ++ [Submit; Submit]))))
   = status_sets (VStr "Sending...")
                 (log (Sample.after CF2 (Sample.fill ++ [Submit; Submit]))) /\
   length (requests
             (log (Sample.after CF2 (Sample.fill ++ [Submit; Submit]))))
   = length (pending (Sample.after CF2 (Sample.fill ++ [Submit; Submit])))
     + status_sets (VStr "Message sent successfully!")
                   (log (Sample.after CF2 (Sample.fill ++ [Submit; Submit])))
     + status_sets (VStr "Failed to send message.")
                   (log (Sample.after CF2 (Sample.fill ++ [Submit; Submit])))
     + status_sets (VStr "An error occurred.")
                   (log (Sample.after CF2 (Sample.fill ++ [Submit; Submit])))
   /\
   console_errors (log (Sample.after CF2 (Sample.fill ++ [Submit; Submit])))
   = status_sets (VStr "An error occurred.")
                 (log (Sample.after CF2 (Sample.fill ++ [Submit; Submit])))).
Proof.
  split; [split; reflexivity|]. split.
  - apply (proj1 requests_accounted
             (Sample.after CF (Sample.fill ++ [Submit]))).
    exists (Sample.fill ++ [Submit]). reflexivity.
  - apply (proj2 requests_accounted
             (Sample.after CF2 (Sample.fill ++ [Submit; Submit]))).
    exists (Sample.fill ++ [Submit; Submit]). reflexivity.
Defined.

(** X7: the initial status is never set again: in every reachable state of
    the first form the status is [null] exactly when no request has been
    sent yet, and in every reachable state of the second form it is the
    empty string exactly when no request has been sent yet. Once the user
    has submitted, some feedback state stays for good. *)
Theorem initial_status_until_first_request :
  (forall w : world,
      reachable CF w -> (status w = VNull <-> requests (log w) = [])) /\
  (forall w : world,
      reachable CF2 w ->
      (status w = VStr EmptyString <-> requests (log w) = [])).
Proof.
  split; intros w Hr.
  - now apply Ledger_reachable in Hr as (_ & _ & _ & _ & K).
  - now apply Ledger2_reachable in Hr as (_ & _ & _ & _ & K).
Qed.

Lemma initial_status_until_first_request_witness :
  (status (Sample.after CF Sample.fill) = VNull /\
   (status (Sample.after CF Sample.fill) = VNull <->
    requests (log (Sample.after CF Sample.fill)) = [])) /\
  (status (Sample.after CF2 Sample.fill) = VStr EmptyString /\
   (status (Sample.after CF2 Sample.fill) = VStr EmptyString <->
    requests (log (Sample.after CF2 Sample.fill)) = [])).
Proof.
  split; (split; [reflexivity|]).
  - apply (proj1 initial_status_until_first_request
             (Sample.after CF Sample.fill)).
    exists Sample.fill. reflexivity.
  - apply (proj2 initial_status_until_first_request
             (Sample.after CF2 Sample.fill)).
    exists Sample.fill. reflexivity.
Defined.

(** ** Responses out of order in the second form *)

Lemma dispatch_submit2 (w : world) (n e m : string) :
  formData w = ContactForm.form n e m -> filled n e m = true ->
  dispatch CF2 Submit w =
  Some {| formData := formData w; status := VStr "Sending...";
          pending := pending w ++ [TFetch ContactForm2.at_fetch];
          log := log w ++
                 [ Did preventDefault;
                   Did (setStatus (VStr "Sending..."));
                   Requested ContactForm2.endpoint
                             (snd (ContactForm2.request n e m)) ] |}.
Proof.
  intros Hfd Hf. unfold dispatch, view. cbn [render CF2 handleSubmit].
  rewrite Hfd, can_submit_render2, Hf.
  rewrite handleSubmit2_exec, ?Hfd. reflexivity.
Qed.

(** X8: the second form keeps no link between a response and the state it
    answers to. In every reachable state any of its pending requests may
    settle, in any order; the status is then the message of that outcome
    alone, whatever it was, and a success empties the fields whatever they
    hold and whatever else is pending, while a failure leaves them. *)
Theorem second_form_settles_in_any_order :
  forall (w : world) (i : nat) (o : settled Response),
    reachable CF2 w ->
    i < length (pending w) ->
    exists w',
      dispatch CF2 (FetchSettled i o) w = Some w' /\
      S (length (pending w')) = length (pending w) /\
      status w' = outcome_status o /\
      formData w' = outcome_fields o (formData w).
Proof.
  intros w i o Hr Hi. apply Inv2_reachable in Hr.
  destruct Hr as (_ & HF & _).
  destruct (nth_error (pending w) i) as [t|] eqn:E;
    [|apply nth_error_None in E; lia].
  pose proof (nth_error_Forall _ _ _ _ HF E) as ->.
  unfold dispatch. rewrite E. eexists. split; [reflexivity|].
  apply length_remove_nth in Hi.
  destruct o as [r | thrown]; [destruct (ok r) eqn:Hok|]; cbn [outcome_status
    outcome_fields]; rewrite ?Hok.
  - rewrite at_fetch2_ok_exec by exact Hok. cbn. auto.
  - rewrite at_fetch2_not_ok_exec by exact Hok. cbn. auto.
  - rewrite at_fetch2_rejected_exec. cbn. auto.
Qed.

Lemma second_form_settles_in_any_order_witness :
  exists w',
    dispatch CF2 (FetchSettled 1 (Fulfilled Sample.r200))
      (Sample.after CF2
         (Sample.fill ++ [Submit; Submit; Change "message" "One more"]))
    = Some w' /\
    S (length (pending w'))
    = length (pending
                (Sample.after CF2
                   (Sample.fill
                    ++ [Submit; Submit; Change "message" "One more"]))) /\
    status w' = outcome_status (Fulfilled Sample.r200) /\
    formData w'
    = outcome_fields (Fulfilled Sample.r200)
        (formData
           (Sample.after CF2
              (Sample.fill ++ [Submit; Submit; Change "message" "One more"]))).
Proof.
  apply (second_form_settles_in_any_order
           (Sample.after CF2
              (Sample.fill ++ [Submit; Submit; Change "message" "One more"]))
           1 (Fulfilled Sample.r200)).
  - exists (Sample.fill ++ [Submit; Submit; Change "message" "One more"]).
    reflexivity.
  - cbn. lia.
Defined.

(** X9: in the second form a submission can always be repeated at once:
    after any submit event a second one is dispatched while the first
    request is pending, and it sends a second request equal to the first. *)
Theorem second_form_repeats_submission :
  forall w w1 : world,
    reachable CF2 w ->
    dispatch CF2 Submit w = Some w1 ->
    exists (w2 : world) (n e m : string),
      dispatch CF2 Submit w1 = Some w2 /\
      formData w = ContactForm.form n e m /\
      requests (log w2)
      = requests (log w)
        ++ [ContactForm2.request n e m; ContactForm2.request n e m] /\
      length (pending w2) = length (pending w) + 2.
Proof.
  intros w w1 Hr Hd. apply Inv2_reachable in Hr.
  destruct (submit_step2 _ _ Hr Hd) as (n & e & m & Hfd & Hf & ->).
  eexists. exists n, e, m.
  split; [apply (dispatch_submit2 _ n e m); [exact Hfd | exact Hf]|].
  split; [exact Hfd|].
  ledger. rewrite ?app_nil_r, <- ?app_assoc. split; [reflexivity | lia].
Qed.

Lemma second_form_repeats_submission_witness :
  exists (w2 : world) (n e m : string),
    dispatch CF2 Submit (Sample.after CF2 (Sample.fill ++ [Submit]))
    = Some w2 /\
    formData (Sample.after CF2 Sample.fill) = ContactForm.form n e m /\
    requests (log w2)
    = requests (log (Sample.after CF2 Sample.fill))
      ++ [ContactForm2.request n e m; ContactForm2.request n e m] /\
    length (pending w2)
    = length (pending (Sample.after CF2 Sample.fill)) + 2.
Proof.
  apply (second_form_repeats_submission
           (Sample.after CF2 Sample.fill)
           (Sample.after CF2 (Sample.fill ++ [Submit]))).
  - exists Sample.fill. reflexivity.
  - reflexivity.
Defined.

(** ** What the user reads *)

Lemma count_text_render (fd fd' : obj) (st : value) (s : string) :
  count_text s (ContactForm.render fd st)
  = count_text s (ContactForm.render fd' st).
Proof.
  unfold count_text, ContactForm.render, ContactForm.when.
  destruct (value_eqb st (VStr "success")), (value_eqb st (VStr "error"));
    reflexivity.
Qed.

Lemma count_text_render2 (fd fd' : obj) (st : value) (s : string) :
  count_text s (ContactForm2.render fd st)
  = count_text s (ContactForm2.render fd' st).
Proof.
  unfold count_text, ContactForm2.render, ContactForm2.status_line.
  destruct st as [|t]; destruct (truthy _); reflexivity.
Qed.

(** X10: the first form shows ['Message sent successfully!'] exactly when
    the status is ['success'] and ['Error sending message. Please try
    again.'] exactly when it is ['error'], so never both, and its button
    reads ['Sending...'] exactly when the status is ['submitting'] and
    ['Submit'] otherwise. In either form an edit changes no text of the
    form: the message of the last outcome stays while the user types. *)
Theorem feedback_follows_status :
  (forall w : world,
      count_text "Message sent successfully!" (view CF w)
      = (if value_eqb (status w) (VStr "success") then 1 else 0) /\
      count_text "Error sending message. Please try again." (view CF w)
      = (if value_eqb (status w) (VStr "error") then 1 else 0) /\
      count_text "Sending..." (view CF w)
      = (if value_eqb (status w) (VStr "submitting") then 1 else 0) /\
      count_text "Submit" (view CF w)
      = (if value_eqb (status w) (VStr "submitting") then 0 else 1)) /\
  (forall (C : component) (w w' : world) (name value s : string),
      In C [CF; CF2] ->
      dispatch C (Change name value) w = Some w' ->
      count_text s (view C w') = count_text s (view C w)).
Proof.
  split.
  - intros w. unfold view. cbn [render CF].
    unfold count_text, ContactForm.render, ContactForm.when.
    destruct (status w) as [|s]; [repeat split|].
    cbn [value_eqb].
    destruct (String.eqb_spec s "success") as [->|];
      [repeat split|].
    destruct (String.eqb_spec s "error") as [->|];
      [repeat split|].
    destruct (String.eqb_spec s "submitting") as [->|]; repeat split.
  - intros C w w' name value s HC Hd.
    rewrite (form_change C _ _ _ HC) in Hd.
    destruct (is_field name); [|discriminate]. injection Hd as <-.
    destruct HC as [<- | [<- | []]]; unfold view; cbn [render CF CF2 formData
      status].
    + apply count_text_render.
    + apply count_text_render2.
Qed.

Lemma feedback_follows_status_witness :
  count_text "Error sending message. Please try again."
    (view CF
       (Sample.after CF
          (Sample.fill
           ++ [Submit; FetchSettled 0 (Rejected Sample.network_error);
               Change "message" "Hello again"]))) = 1 /\
  count_text "Error sending message. Please try again."
    (view CF
       (Sample.after CF
          (Sample.fill
           ++ [Submit; FetchSettled 0 (Rejected Sample.network_error);
               Change "message" "Hello again"])))
  = count_text "Error sending message. Please try again."
      (view CF
         (Sample.after CF
            (Sample.fill
             ++ [Submit; FetchSettled 0 (Rejected Sample.network_error)]))).
Proof.
  split; [reflexivity|].
  apply (proj2 feedback_follows_status
           CF
           (Sample.after CF
              (Sample.fill
               ++ [Submit; FetchSettled 0 (Rejected Sample.network_error)]))
           (Sample.after CF
              (Sample.fill
               ++ [Submit; FetchSettled 0 (Rejected Sample.network_error);
                   Change "message" "Hello again"]))
           "message" "Hello again"
           "Error sending message. Please try again.").
  - left. reflexivity.
  - reflexivity.
Defined.

(** ** When a submission is admitted *)

(** X11: the three controls are [required], and the button of the first
    form is disabled while the status is ['submitting']: in every reachable
    state a submit event reaches [handleSubmit] of the first form only if
    none of the three fields is empty and the status is not ['submitting'],
    and of the second form only if none of the three fields is empty. So in
    both forms, right after a success response has emptied the fields, no
    submit event reaches [handleSubmit] until they are filled again. *)
Theorem submission_needs_filled_fields :
  (forall w : world,
      reachable CF w ->
      exists n e m,
        formData w = [("name", n); ("email", e); ("message", m)] /\
        (dispatch CF Submit w <> None ->
         n <> EmptyString /\ e <> EmptyString /\ m <> EmptyString /\
         status w <> VStr "submitting")) /\
  (forall w : world,
      reachable CF2 w ->
      exists n e m,
        formData w = [("name", n); ("email", e); ("message", m)] /\
        (dispatch CF2 Submit w <> None ->
         n <> EmptyString /\ e <> EmptyString /\ m <> EmptyString)) /\
  (forall (C : component) (w w' : world) (i : nat) (r : Response),
      In C [CF; CF2] ->
      reachable C w ->
      ok r = true ->
      dispatch C (FetchSettled i (Fulfilled r)) w = Some w' ->
      dispatch C Submit w' = None).
Proof.
  assert (F : forall n e m, filled n e m = true ->
                            n <> EmptyString /\ e <> EmptyString /\
                            m <> EmptyString).
  { intros n e m H. unfold filled in H.
    apply andb_prop in H as [H Hm]. apply andb_prop in H as [Hn He].
    repeat split; intros ->; discriminate. }
  split; [|split].
  - intros w Hr. apply Inv_reachable in Hr.
    destruct Hr as [(n & e & m & Hfd) _]. exists n, e, m.
    split; [exact Hfd|].
    unfold dispatch, view. cbn [render CF].
    rewrite Hfd, can_submit_render. unfold ContactForm.submitting.
    destruct (filled n e m) eqn:Hf;
      [|rewrite andb_false_r; intros H; now destruct H].
    destruct (F n e m Hf) as (Hn & He & Hm).
    destruct (status w) as [|s]; cbn.
    + intros _. repeat split; auto. discriminate.
    + destruct (String.eqb_spec s "submitting") as [->|Hne]; cbn.
      * intros H. now destruct H.
      * intros _. repeat split; auto. congruence.
  - intros w Hr. apply Inv2_reachable in Hr.
    destruct Hr as [(n & e & m & Hfd) _]. exists n, e, m.
    split; [exact Hfd|].
    unfold dispatch, view. cbn [render CF2].
    rewrite Hfd, can_submit_render2.
    destruct (filled n e m) eqn:Hf; [|intros H; now destruct H].
    intros _. now apply F.
  - intros C w w' i r [<- | [<- | []]] Hr Hok Hd.
    + apply Inv_reachable in Hr.
      destruct (fetch_step _ _ _ _ Hr Hd) as (_ & _ & _ & ->).
      rewrite at_fetch_ok_exec by exact Hok.
      unfold dispatch, view. cbn [render CF formData status].
      change ContactForm.emptyForm
        with (ContactForm.form EmptyString EmptyString EmptyString).
      now rewrite can_submit_render.
    + apply Inv2_reachable in Hr.
      destruct (fetch_step2 _ _ _ _ Hr Hd) as (_ & ->).
      rewrite at_fetch2_ok_exec by exact Hok.
      unfold dispatch, view. cbn [render CF2 formData status].
      change ContactForm2.emptyForm
        with (ContactForm.form EmptyString EmptyString EmptyString).
      now rewrite can_submit_render2.
Qed.

Lemma submission_needs_filled_fields_witness :
  (exists n e m,
      formData (Sample.after CF Sample.fill)
      = [("name", n); ("email", e); ("message", m)] /\
      (dispatch CF Submit (Sample.after CF Sample.fill) <> None ->
       n <> EmptyString /\ e <> EmptyString /\ m <> EmptyString /\
       status (Sample.after CF Sample.fill) <> VStr "submitting")) /\
  dispatch CF Submit (Sample.after CF Sample.fill) <> None /\
  dispatch CF Submit (Sample.after CF [Change "name" "Ada"]) = None /\
  dispatch CF2 Submit
    (Sample.after CF2
       (Sample.fill ++ [Submit; FetchSettled 0 (Fulfilled Sample.r200)]))
  = None.
Proof.
  destruct submission_needs_filled_fields as (H1 & _ & H3).
  split; [|split; [discriminate|split; [reflexivity|]]].
  - apply (H1 (Sample.after CF Sample.fill)).
    exists Sample.fill. reflexivity.
  - apply (H3 CF2 (Sample.after CF2 (Sample.fill ++ [Submit]))
              (Sample.after CF2
                 (Sample.fill
                  ++ [Submit; FetchSettled 0 (Fulfilled Sample.r200)]))
              0 Sample.r200).
    + right. left. reflexivity.
    + exists (Sample.fill ++ [Submit]). reflexivity.
    + reflexivity.
    + reflexivity.
Defined.

(** ** The [axios] variant *)

Lemma at_post_exec (r : Response) (w : world) :
  exec (Axios.at_post (Fulfilled r)) w =
  if ok r then
    if Axios.status_is_200 r
    then {| formData := ContactForm2.emptyForm;
            status := VStr "Message sent successfully!";
            pending := pending w;
            log := log w ++
                   [ Did (setStatus (VStr "Message sent successfully!"));
                     Did (setFormData ContactForm2.emptyForm) ] |}
    else {| formData := formData w;
            status := VStr "Failed to send message.";
            pending := pending w;
            log := log w ++
                   [Did (setStatus (VStr "Failed to send message."))] |}
  else {| formData := formData w; status := VStr "An error occurred.";
          pending := pending w;
          log := log w ++
                 [ Did (console_error "Error submitting form:"
                                      (LError (Axios.status_error r)));
                   Did (setStatus (VStr "An error occurred.")) ] |}.
Proof.
  unfold Axios.at_post. cbn -[Axios.status_error].
  destruct (ok r); [destruct (Axios.status_is_200 r)|];
    cbn -[Axios.status_error]; rewrite <- ?app_assoc; reflexivity.
Qed.

(** X12: the [axios] variant of the second form's [try] statement posts
    the JSON text of [formData] to the same endpoint and waits; on a failed
    transport it does what the [fetch] one does. On a response it tests
    [response.status === 200] where the [fetch] one tests [response.ok],
    and [axios] itself rejects a status outside 200 to 299: so status 200
    reports success and empties the fields; another status from 200 to
    299, a success for [fetch], sets ['Failed to send message.']; and a
    status outside 200 to 299 runs the [catch] block, which calls
    [console.error] and sets ['An error occurred.'], where [fetch] sets
    ['Failed to send message.'] and logs nothing. The fields are kept in
    both failures. The two variants leave the same status after a response
    exactly when its status is 200. *)
Theorem axios_only_200_is_success :
  forall (fd : obj) (w : world) (r : Response) (thrown : Async.error),
    exec (Axios.try_statement fd) w
    = {| formData := formData w; status := status w;
         pending := pending w ++ [TFetch Axios.at_post];
         log := log w ++
                [ Requested "http://localhost:5000/contact"
                    {| method := "POST"; headers := [];
                       body := JSON_stringify fd |} ] |} /\
    (status_code r = 200%Z ->
     state_of (exec (Axios.at_post (Fulfilled r)) w)
     = ([("name", EmptyString); ("email", EmptyString);
         ("message", EmptyString)],
        VStr "Message sent successfully!", pending w)) /\
    (ok r = true -> status_code r <> 200%Z ->
     state_of (exec (Axios.at_post (Fulfilled r)) w)
     = (formData w, VStr "Failed to send message.", pending w) /\
     console_errors (log (exec (Axios.at_post (Fulfilled r)) w))
     = console_errors (log w)) /\
    (ok r = false ->
     state_of (exec (Axios.at_post (Fulfilled r)) w)
     = (formData w, VStr "An error occurred.", pending w) /\
     console_errors (log (exec (Axios.at_post (Fulfilled r)) w))
     = S (console_errors (log w)) /\
     console_errors (log (exec (ContactForm2.at_fetch (Fulfilled r)) w))
     = console_errors (log w)) /\
    (status (exec (Axios.at_post (Fulfilled r)) w)
     = status (exec (ContactForm2.at_fetch (Fulfilled r)) w)
     <-> status_code r = 200%Z) /\
    exec (Axios.at_post (Rejected thrown)) w
    = exec (ContactForm2.at_fetch (Rejected thrown)) w.
Proof.
  intros fd w r thrown. split; [reflexivity|].
  rewrite at_post_exec. unfold Axios.status_is_200.
  destruct (ok r) eqn:Hok.
  - rewrite at_fetch2_ok_exec by exact Hok.
    destruct (Z.eqb_spec (status_code r) 200) as [E | N].
    + split; [reflexivity|]. split; [congruence|]. split; [discriminate|].
      split; [|reflexivity]. cbn. split; auto.
    + split; [congruence|]. split.
      * intros _ _. split; [reflexivity|]. ledger. lia.
      * split; [discriminate|]. split; [|reflexivity]. cbn.
        split; [discriminate | congruence].
  - rewrite at_fetch2_not_ok_exec by exact Hok.
    assert (N : status_code r <> 200%Z).
    { intros E. unfold ok in Hok. rewrite E in Hok. discriminate. }
    split; [congruence|]. split; [discriminate|]. split.
    + intros _. split; [reflexivity|]. split; ledger; lia.
    + split; [|reflexivity]. cbn. split; [discriminate | congruence].
Qed.

Lemma axios_only_200_is_success_witness :
  (ok {| status_code := 201 |} = true /\
   state_of (exec (ContactForm2.at_fetch
                     (Fulfilled {| status_code := 201 |}))
                  (Sample.after CF2 (Sample.fill ++ [Submit])))
   = (ContactForm2.emptyForm, VStr "Message sent successfully!",
      pending (Sample.after CF2 (Sample.fill ++ [Submit]))) /\
   state_of (exec (Axios.at_post (Fulfilled {| status_code := 201 |}))
                  (Sample.after CF2 (Sample.fill ++ [Submit])))
   = (formData (Sample.after CF2 (Sample.fill ++ [Submit])),
      VStr "Failed to send message.",
      pending (Sample.after CF2 (Sample.fill ++ [Submit])))) /\
  (state_of (exec (Axios.at_post (Fulfilled Sample.r500))
                  (Sample.after CF2 (Sample.fill ++ [Submit])))
   = (formData (Sample.after CF2 (Sample.fill ++ [Submit])),
      VStr "An error occurred.",
      pending (Sample.after CF2 (Sample.fill ++ [Submit]))) /\
   error_message (Axios.status_error Sample.r500)
   = "Request failed with status code 500"%string).
Proof.
  split.
  - split; [reflexivity|]. split; [reflexivity|].
    apply (proj1 (proj2 (proj2 (axios_only_200_is_success
                                  [] (Sample.after CF2
                                        (Sample.fill ++ [Submit]))
                                  {| status_code := 201 |}
                                  Sample.network_error)))).
    + reflexivity.
    + discriminate.
  - split; [|reflexivity].
    apply (proj1 (proj2 (proj2 (proj2 (axios_only_200_is_success
                                         [] (Sample.after CF2
                                               (Sample.fill ++ [Submit]))
                                         Sample.r500
                                         Sample.network_error))))).
    reflexivity.
Defined.

(** ** What the request body tells *)

(** X13: the body of the request determines the three fields: two forms
    are serialized to the same JSON text only if they hold the same name,
    the same email and the same message. A quote, a backslash, a comma or a
    control character typed into a field cannot make the text of one form
    read as another, since [JSON.stringify] escapes them. *)
Theorem request_body_determines_fields :
  forall n e m n' e' m' : string,
    JSON_stringify [("name", n); ("email", e); ("message", m)]
    = JSON_stringify [("name", n'); ("email", e'); ("message", m')] ->
    n = n' /\ e = e' /\ m = m'.
Proof.
  intros n e m n' e' m' H.
  change (ContactForm.json_of n e m = ContactForm.json_of n' e' m') in H.
  apply (f_equal JsonText.read_form) in H.
  rewrite !read_form_json_of in H. injection H as -> -> ->. auto.
Qed.

Lemma request_body_determines_fields_witness :
  "Ada" = "Ada" /\ "ada@example.org" = "ada@example.org" /\ "Hello" = "Hello".
Proof.
  apply (request_body_determines_fields
           "Ada" "ada@example.org" "Hello" "Ada" "ada@example.org" "Hello").
  reflexivity.
Defined.

(** ** How ['submitting'] ends *)

(** X14: the first form has no timeout and no cancellation: in a reachable
    state whose status is ['submitting'], the only events that end it are
    the settling of [fetch] and the settling of [response.json()]; an edit
    keeps it and a submit event is not dispatched. And the request can
    always settle: whatever the outcome, the event that the form is waiting
    for is dispatched, and a settling of [response.json()] ends
    ['submitting'] with ['error']. *)
Theorem submitting_ends_only_by_settling :
  forall w : world,
    reachable CF w ->
    status w = VStr "submitting" ->
    (forall (e : event) (w' : world),
        dispatch CF e w = Some w' ->
        status w' <> VStr "submitting" ->
        (exists i o, e = FetchSettled i o) \/
        (exists i o, e = JsonSettled i o)) /\
    ((forall o : settled Response,
         exists w', dispatch CF (FetchSettled 0 o) w = Some w') \/
     (forall o : settled json,
         exists w', dispatch CF (JsonSettled 0 o) w = Some w' /\
                    status w' = VStr "error")).
Proof.
  intros w Hr Hs. apply Inv_reachable in Hr. split.
  - intros e w' Hd Hn. destruct e as [name value | | i o | i o]; eauto.
    + apply change_step in Hd as [_ ->]. now destruct Hn.
    + destruct (submit_step _ _ Hr Hd) as (_ & _ & _ & _ & _ & _ & H & _).
      now destruct H.
  - destruct Hr as [_ [[_ [H | [H | H]]] | [_ [Hp | Hp]]]];
      try (rewrite H in Hs; discriminate).
    + left. intros o. eexists. now apply dispatch_fetch.
    + right. intros o. eexists. rewrite (dispatch_json _ _ Hp).
      split; [reflexivity|].
      destruct o as [j | thrown];
        [rewrite at_json_fulfilled_exec | rewrite at_json_rejected_exec];
        reflexivity.
Qed.

Lemma submitting_ends_only_by_settling_witness :
  status (Sample.after CF
            (Sample.fill ++ [Submit; Change "message" "Hello again"]))
  = VStr "submitting" /\
  (forall (e : event) (w' : world),
      dispatch CF e (Sample.after CF
                       (Sample.fill
                        ++ [Submit; Change "message" "Hello again"]))
      = Some w' ->
      status w' <> VStr "submitting" ->
      (exists i o, e = FetchSettled i o) \/
      (exists i o, e = JsonSettled i o)).
Proof.
  split; [reflexivity|].
  apply (submitting_ends_only_by_settling
           (Sample.after CF
              (Sample.fill ++ [Submit; Change "message" "Hello again"]))).
  - exists (Sample.fill ++ [Submit; Change "message" "Hello again"]).
    reflexivity.
  - reflexivity.
Defined.
